(** * The administrative client of the CA: ca/adminClient.go

    A shallow embedding of [AdminClient]: token minting
    ([generateAdminToken]), the retry controller ([retryOnError]), the ten
    request operations with their [retry:] block, and the two aggregators
    ([GetAdmins], [GetProvisioners]).

    Effects are explicit.  A [State] holds the entropy tape read by
    [randutil.Hex], the clock read by [time.Now], the remote server, the
    transport currently installed in [c.client], and a log of the
    observable events (round trips, closed bodies, transport swaps, calls
    of the retry predicate).  Go's [(value, error)] results are an
    [outcome]; a nil dereference is [Panic]; the [goto retry] loop and the
    [for] loops of the aggregators recurse on a fuel argument. *)

From Stdlib Require Import String Ascii List ZArith Lia Bool DecimalString.
Import ListNotations.
Open Scope string_scope.

Set Implicit Arguments.

(** ** URLs, errors, tokens *)

(** [url.URL], restricted to the fields the client reads or writes.  The
    encoded query ([url.Values.Encode]) is kept as its list of key/value
    pairs, in the order of the encoding. *)
Record URL : Type := mkURL {
  Scheme : string;
  Host : string;
  Path : string;
  RawQuery : list (string * string)
}.

(** [&url.URL{Path: p, RawQuery: q}] *)
Definition url_ref (p : string) (q : list (string * string)) : URL :=
  {| Scheme := ""; Host := ""; Path := p; RawQuery := q |}.

(** Go [error] values: [errors.New], [errors.Wrapf] (format and its URL
    arguments kept apart), [errs.Wrap], and errors that come out of a
    library or the operating system. *)
Inductive Error : Type :=
| errors_New (msg : string)
| errors_Wrapf (cause : Error) (format : string) (args : list URL)
| errs_Wrap (status : Z) (cause : Error) (msg : string)
| external_error (origin : string).

(** The claims set by the [token.Options] used in [generateAdminToken]. *)
Record Claims : Type := mkClaims {
  jti : string;
  kid : string;
  iss : string;
  sub : string;
  aud : list string;
  nbf : Z;
  exp : Z;
  x5c : list string
}.

Inductive token_Options : Type :=
| WithJWTID (s : string)
| WithKid (s : string)
| WithIssuer (s : string)
| WithAudience (s : string)
| WithValidity (notBefore expiration : Z)
| WithX5CCerts (certs : list string).

(** [adminAPI.GetAdminsResponse] and [adminAPI.GetProvisionersResponse]. *)
Record GetAdminsResponse (A : Type) : Type := {
  Admins : list A;
  NextCursor : string
}.

Record GetProvisionersResponse (P : Type) : Type := {
  Provisioners : list P;
  ProvisionersNextCursor : string
}.

(** ** What the client depends on

    Types and functions the file imports: the resource records of
    [linkedca], [clientOptions] with [apply] and [getTransport] (ca/client.go),
    [path.Join], [url.ResolveReference], [http.NewRequest], the validation
    done by the token options, signing, and the JSON codecs.  They are
    parameters of the development. *)
Class Deps : Type := {
  Admin : Type;
  Provisioner : Type;
  ProvisionerInterface : Type;
  CreateAdminRequest : Type;
  UpdateAdminRequest : Type;
  ClientOption : Type;
  clientOptions : Type;
  RoundTripper : Type;
  PrivateKey : Type;
  (** [token.DefaultValidity], a [time.Duration] *)
  DefaultValidity : Z;
  path_Join : list string -> string;
  ResolveReference : URL -> URL -> URL;
  http_NewRequest_error : string -> URL -> option Error;
  clientOptions_apply : list ClientOption -> Error + clientOptions;
  clientOptions_getTransport : clientOptions -> URL -> Error + RoundTripper;
  token_Options_error : token_Options -> option Error;
  SignedString_error : string -> PrivateKey -> option Error;
  json_Marshal_CreateAdminRequest : CreateAdminRequest -> Error + string;
  json_Marshal_UpdateAdminRequest : UpdateAdminRequest -> Error + string;
  protojson_Marshal : Provisioner -> Error + string;
  protojson_Unmarshal_Admin : string -> Error + Admin;
  protojson_Unmarshal_Provisioner : string -> Error + Provisioner;
  json_Decode_GetAdminsResponse : string -> Error + GetAdminsResponse Admin;
  json_Decode_GetProvisionersResponse :
    string -> Error + GetProvisionersResponse ProvisionerInterface;
  json_Decode_admin_Error : string -> Error + string
}.

Section Model.
Context {D : Deps}.

Record JSONWebKey : Type := {
  KeyID : string;
  Algorithm : string;
  Key : PrivateKey
}.

(** A signed token, kept symbolic: the claims, and the algorithm and key
    they were signed with. *)
Record Token : Type := {
  tokClaims : Claims;
  tokAlgorithm : string;
  tokKey : PrivateKey
}.

Record Request : Type := {
  Method : string;
  ReqURL : URL;
  Header : list (string * Token);
  ReqBody : option string
}.

Record Response : Type := {
  StatusCode : Z;
  Body : string
}.

(** [RetryFunc], or nil *)
Definition RetryFunc : Type := Z -> bool.

(** [AdminClient].  The transport held by [client] is mutable and lives in
    the [State]; [x5cCert] is not read by any method. *)
Record AdminClient : Type := {
  endpoint : URL;
  retryFunc : option RetryFunc;
  opts : list ClientOption;
  x5cJWK : option JSONWebKey;
  x5cCertFile : string;
  x5cCertStrs : list string;
  x5cIssuer : string;
  x5cSubject : string
}.

(** ** State and events *)

Inductive Event : Type :=
| EvSend (tr : RoundTripper) (req : Request) (res : Error + Response)
| EvClose (body : string)
| EvSetTransport (tr : RoundTripper)
| EvRetryFunc (code : Z).

Record State : Type := mkState {
  wEntropy : list nat;
  wClock : nat -> Z;
  wClockReads : nat;
  wServer : list Event -> RoundTripper -> Request -> Error + Response;
  wTransport : RoundTripper;
  wLog : list Event
}.

Definition log_event (ev : Event) (st : State) : State :=
  mkState (wEntropy st) (wClock st) (wClockReads st) (wServer st)
          (wTransport st) (wLog st ++ [ev]).

Definition set_transport (tr : RoundTripper) (st : State) : State :=
  mkState (wEntropy st) (wClock st) (wClockReads st) (wServer st)
          tr (wLog st).

Definition set_entropy (e : list nat) (st : State) : State :=
  mkState e (wClock st) (wClockReads st) (wServer st)
          (wTransport st) (wLog st).

Definition tick_clock (st : State) : State :=
  mkState (wEntropy st) (wClock st) (S (wClockReads st)) (wServer st)
          (wTransport st) (wLog st).

(** ** The monad of the client's methods *)

Inductive outcome (A : Type) : Type :=
| Ret (a : A)
| Fail (err : Error)
| Panic
| OutOfFuel.
Arguments Ret {A} a.
Arguments Fail {A} err.
Arguments Panic {A}.
Arguments OutOfFuel {A}.

Definition M (A : Type) : Type := State -> outcome A * State.

Definition ret {A} (a : A) : M A := fun st => (Ret a, st).

Definition bind {A B} (m : M A) (k : A -> M B) : M B :=
  fun st =>
    match m st with
    | (Ret a, st') => k a st'
    | (Fail e, st') => (Fail e, st')
    | (Panic, st') => (Panic, st')
    | (OutOfFuel, st') => (OutOfFuel, st')
    end.

Definition fail {A} (e : Error) : M A := fun st => (Fail e, st).

Definition panic {A} : M A := fun st => (Panic, st).

(** a library call that returns [(value, error)] and has no effect *)
Definition lift {A} (r : Error + A) : M A :=
  match r with
  | inl e => fail e
  | inr a => ret a
  end.

(** [if err != nil { return ..., wrap(err) }] *)
Definition on_error {A} (wrap : Error -> Error) (m : M A) : M A :=
  fun st =>
    match m st with
    | (Fail e, st') => (Fail (wrap e), st')
    | r => r
    end.

End Model.

Arguments Ret {A} a.
Arguments Fail {A} err.
Arguments Panic {A}.
Arguments OutOfFuel {A}.

Declare Scope go_scope.
Delimit Scope go_scope with go.
Notation "x <- m ;; k" := (bind m (fun x => k))
  (at level 61, m at next level, right associativity) : go_scope.
Notation "m ;;; k" := (bind m (fun _ => k))
  (at level 61, right associativity) : go_scope.

Section Client.
Context {D : Deps}.
Local Open Scope go_scope.

(** ** Library calls with an effect *)

Definition hex_alphabet : string := "0123456789abcdef".

Definition hex_char (n : nat) : ascii :=
  match String.get (n mod 16) hex_alphabet with
  | Some ch => ch
  | None => "0"%char
  end.

(** [randutil.Hex(length)]: [length] characters of [hex_alphabet], each
    picked by the next value of the entropy tape; an error when the random
    source gives out. *)
Definition hex_of (draws : list nat) : string :=
  string_of_list_ascii (map hex_char draws).

Definition randutil_Hex (length : nat) : M string :=
  fun st =>
    if (length <=? List.length (wEntropy st))%nat
    then (Ret (hex_of (firstn length (wEntropy st))),
          set_entropy (skipn length (wEntropy st)) st)
    else (Fail (external_error "crypto/rand"), st).

(** [time.Now()] *)
Definition time_Now : M Z :=
  fun st => (Ret (wClock st (wClockReads st)), tick_clock st).

Definition set_option (cl : Claims) (o : token_Options) : Claims :=
  match o with
  | WithJWTID s =>
      mkClaims s (kid cl) (iss cl) (sub cl) (aud cl) (nbf cl) (exp cl) (x5c cl)
  | WithKid s =>
      mkClaims (jti cl) s (iss cl) (sub cl) (aud cl) (nbf cl) (exp cl) (x5c cl)
  | WithIssuer s =>
      mkClaims (jti cl) (kid cl) s (sub cl) (aud cl) (nbf cl) (exp cl) (x5c cl)
  | WithAudience s =>
      mkClaims (jti cl) (kid cl) (iss cl) (sub cl) [s] (nbf cl) (exp cl) (x5c cl)
  | WithValidity notBefore expiration =>
      mkClaims (jti cl) (kid cl) (iss cl) (sub cl) (aud cl)
               notBefore expiration (x5c cl)
  | WithX5CCerts certs =>
      mkClaims (jti cl) (kid cl) (iss cl) (sub cl) (aud cl) (nbf cl) (exp cl) certs
  end.

Fixpoint set_options (cl : Claims) (os : list token_Options) : Error + Claims :=
  match os with
  | [] => inr cl
  | o :: os' =>
      match token_Options_error o with
      | Some e => inl e
      | None => set_options (set_option cl o) os'
      end
  end.

(** [provision.New(subject, options...)]: the claims for [subject] after
    every option was checked and applied in order. *)
Definition provision_New (subject : string) (os : list token_Options)
  : Error + Claims :=
  set_options (mkClaims "" "" "" subject [] 0%Z 0%Z []) os.

(** [tok.SignedString(alg, key)] *)
Definition SignedString (cl : Claims) (alg : string) (key : PrivateKey)
  : Error + Token :=
  match SignedString_error alg key with
  | Some e => inl e
  | None => inr {| tokClaims := cl; tokAlgorithm := alg; tokKey := key |}
  end.

(** [http.NewRequest(method, u.String(), body)] *)
Definition http_NewRequest (method : string) (u : URL) (body : option string)
  : M Request :=
  match http_NewRequest_error method u with
  | Some e => fail e
  | None => ret {| Method := method; ReqURL := u; Header := []; ReqBody := body |}
  end.

(** [req.Header.Add(key, value)] *)
Definition Header_Add (key : string) (value : Token) (req : Request) : Request :=
  {| Method := Method req; ReqURL := ReqURL req;
     Header := Header req ++ [(key, value)]; ReqBody := ReqBody req |}.

(** [r.Close()] on a response body *)
Definition Body_Close (body : string) : M unit :=
  fun st => (Ret tt, log_event (EvClose body) st).

(** Modelled from the spec: [uaClient.Do] (ca/client.go is not among the
    sources).  It issues one HTTP call over the transport that is current
    at dispatch time; a transport-level failure is the returned error. *)
Definition client_Do (req : Request) : M Response :=
  fun st =>
    let res := wServer st (wLog st) (wTransport st) req in
    let st' := log_event (EvSend (wTransport st) req res) st in
    match res with
    | inl e => (Fail e, st')
    | inr resp => (Ret resp, st')
    end.

(** Modelled from the spec: [uaClient.Get] (ca/client.go is not among the
    sources).  It is given the URL only, and issues a body-less GET. *)
Definition client_Get (u : URL) : M Response :=
  client_Do {| Method := "GET"; ReqURL := u; Header := []; ReqBody := None |}.

(** Modelled from the spec: [uaClient.SetTransport] (ca/client.go is not
    among the sources).  It swaps the transport handle. *)
Definition client_SetTransport (tr : RoundTripper) : M unit :=
  fun st => (Ret tt, set_transport tr (log_event (EvSetTransport tr) st)).

(** Modelled from the spec: [readJSON] and [readProtoJSON] (ca/client.go is
    not among the sources).  They decode the body into the expected shape
    and close it on every path. *)
Definition readJSON {A} (decode : string -> Error + A) (body : string) : M A :=
  let r := decode body in
  Body_Close body ;;; lift r.

Definition readProtoJSON {A} (decode : string -> Error + A) (body : string)
  : M A :=
  let r := decode body in
  Body_Close body ;;; lift r.

(** ** adminClient.go *)

Definition adminURLPrefix : string := "admin".

(** the [tokOptions] of [generateAdminToken]; [jwk] is [*c.x5cJWK] *)
Definition tokOptions (c : AdminClient) (jwk : JSONWebKey) (urlPath : string)
    (jwtID : string) (now : Z) : list token_Options :=
  [ WithJWTID jwtID;
    WithKid (KeyID jwk);
    WithIssuer (x5cIssuer c);
    WithAudience urlPath;
    WithValidity now (now + DefaultValidity)%Z;
    WithX5CCerts (x5cCertStrs c) ].

Definition generateAdminToken (c : AdminClient) (urlPath : string) : M Token :=
  jwtID <- randutil_Hex 64 ;;
  now <- time_Now ;;
  match x5cJWK c with
  | None => panic
  | Some jwk =>
      tok <- lift (provision_New (x5cSubject c)
                     (tokOptions c jwk urlPath jwtID now)) ;;
      lift (SignedString tok (Algorithm jwk) (Key jwk))
  end.

Definition retryOnError (c : AdminClient) (r : Response) : M bool :=
  match retryFunc c with
  | Some f =>
      fun st =>
        let st := log_event (EvRetryFunc (StatusCode r)) st in
        if f (StatusCode r) then
          match clientOptions_apply (opts c) with
          | inl _ => (Ret false, st)
          | inr o =>
              match clientOptions_getTransport o (endpoint c) with
              | inl _ => (Ret false, st)
              | inr tr =>
                  (Body_Close (Body r) ;;; client_SetTransport tr ;;; ret true) st
              end
          end
        else (Ret false, st)
  | None => ret false
  end.

Definition readAdminError (r : string) : M Error :=
  let decoded := json_Decode_admin_Error r in
  Body_Close r ;;;
  match decoded with
  | inl err => ret err
  | inr message => ret (errors_New message)
  end.

(** The block labelled [retry:] of every operation: send, and on a status
    of 400 or more either [goto retry] (once, when [retryOnError] says so)
    or return the decoded error.  [wrap] is the [errors.Wrapf] around a
    failed send, [decode] the code after the block. *)
Fixpoint retry_block {A} (c : AdminClient) (send : M Response)
    (wrap : Error -> Error) (decode : Response -> M A)
    (fuel : nat) (retried : bool) : M A :=
  match fuel with
  | O => fun st => (OutOfFuel, st)
  | S fuel' =>
      resp <- on_error wrap send ;;
      if (400 <=? StatusCode resp)%Z then
        again <- (if negb retried then retryOnError c resp else ret false) ;;
        if again then retry_block c send wrap decode fuel' true
        else (err <- readAdminError (Body resp) ;; fail err)
      else decode resp
  end.

Definition GetAdmin (c : AdminClient) (id : string) (fuel : nat) : M Admin :=
  let u := ResolveReference (endpoint c)
             (url_ref (path_Join [adminURLPrefix; "admins"; id]) []) in
  retry_block c (client_Get u)
    (fun err => errors_Wrapf err "client GET %s failed" [u])
    (fun resp =>
       on_error (fun err => errors_Wrapf err "error reading %s" [u])
                (readProtoJSON protojson_Unmarshal_Admin (Body resp)))
    fuel false.

Record adminOptions : Type := {
  cursor : string;
  limit : Z
}.

Definition AdminOption : Type := adminOptions -> Error + adminOptions.

Fixpoint adminOptions_apply (o : adminOptions) (opts : list AdminOption)
  : Error + adminOptions :=
  match opts with
  | [] => inr o
  | fn :: rest =>
      match fn o with
      | inl err => inl err
      | inr o' => adminOptions_apply o' rest
      end
  end.

(** [url.Values]: [Set] replaces the values of a key, [Encode] lists the
    pairs sorted by key. *)
Definition Values : Type := list (string * string).

Definition Values_Set (key value : string) (v : Values) : Values :=
  (filter (fun kv => negb (String.eqb (fst kv) key)) v ++ [(key, value)])%list.

Fixpoint insert_by_key (kv : string * string) (v : Values) : Values :=
  match v with
  | [] => [kv]
  | kv' :: rest =>
      if String.leb (fst kv) (fst kv') then kv :: v
      else kv' :: insert_by_key kv rest
  end.

Definition Values_Encode (v : Values) : list (string * string) :=
  fold_right insert_by_key [] v.

(** [strconv.Itoa] *)
Definition strconv_Itoa (i : Z) : string := NilZero.string_of_int (Z.to_int i).

Definition adminOptions_rawQuery (o : adminOptions) : list (string * string) :=
  let v : Values := [] in
  let v := if (0 <? String.length (cursor o))%nat
           then Values_Set "cursor" (cursor o) v else v in
  let v := if (0 <? limit o)%Z
           then Values_Set "limit" (strconv_Itoa (limit o)) v else v in
  Values_Encode v.

Definition WithAdminCursor (cursor : string) : AdminOption :=
  fun o => inr {| cursor := cursor; limit := limit o |}.

Definition WithAdminLimit (limit : Z) : AdminOption :=
  fun o => inr {| cursor := cursor o; limit := limit |}.

(** [new(adminOptions)] *)
Definition new_adminOptions : adminOptions := {| cursor := ""; limit := 0 |}.

End Client.

Section Operations.
Context {D : Deps}.
Local Open Scope go_scope.

(** [errors.Wrapf(err, format, args...)] as the handler of [on_error] *)
Definition wrapf (format : string) (args : list URL) : Error -> Error :=
  fun err => errors_Wrapf err format args.

Definition GetAdminsPaginate (c : AdminClient) (opts : list AdminOption)
    (fuel : nat) : M (GetAdminsResponse Admin) :=
  o <- lift (adminOptions_apply new_adminOptions opts) ;;
  let u := ResolveReference (endpoint c)
             (url_ref "/admin/admins" (adminOptions_rawQuery o)) in
  tok <- on_error (wrapf "error generating admin token" [])
                  (generateAdminToken c (Path u)) ;;
  req <- on_error (wrapf "create GET %s request failed" [u])
                  (http_NewRequest "GET" u None) ;;
  let req := Header_Add "Authorization" tok req in
  retry_block c (client_Do req)
    (wrapf "client GET %s failed" [u])
    (fun resp =>
       on_error (wrapf "error reading %s" [u])
                (readJSON json_Decode_GetAdminsResponse (Body resp)))
    fuel false.

(** The [for] loop of [GetAdmins]; [pages] bounds the number of iterations,
    [fuel] is handed to every page fetch. *)
Fixpoint GetAdmins_loop (c : AdminClient) (fuel pages : nat)
    (cursor : string) (admins : list Admin) : M (list Admin) :=
  match pages with
  | O => fun st => (OutOfFuel, st)
  | S pages' =>
      resp <- GetAdminsPaginate c [WithAdminCursor cursor; WithAdminLimit 100] fuel ;;
      let admins := (admins ++ Admins resp)%list in
      if String.eqb (NextCursor resp) "" then ret admins
      else GetAdmins_loop c fuel pages' (NextCursor resp) admins
  end.

Definition GetAdmins (c : AdminClient) (opts : list AdminOption) (fuel : nat)
  : M (list Admin) :=
  GetAdmins_loop c fuel fuel "" [].

Definition CreateAdmin (c : AdminClient) (createAdminRequest : CreateAdminRequest)
    (fuel : nat) : M Admin :=
  body <- on_error (fun err => errs_Wrap 500 err "error marshaling request")
                   (lift (json_Marshal_CreateAdminRequest createAdminRequest)) ;;
  let u := ResolveReference (endpoint c) (url_ref "/admin/admins" []) in
  tok <- on_error (wrapf "error generating admin token" [])
                  (generateAdminToken c (Path u)) ;;
  req <- on_error (wrapf "create GET %s request failed" [u])
                  (http_NewRequest "POST" u (Some body)) ;;
  let req := Header_Add "Authorization" tok req in
  retry_block c (client_Do req)
    (wrapf "client POST %s failed" [u])
    (fun resp =>
       on_error (wrapf "error reading %s" [u])
                (readProtoJSON protojson_Unmarshal_Admin (Body resp)))
    fuel false.

Definition RemoveAdmin (c : AdminClient) (id : string) (fuel : nat) : M unit :=
  let u := ResolveReference (endpoint c)
             (url_ref (path_Join [adminURLPrefix; "admins"; id]) []) in
  tok <- on_error (wrapf "error generating admin token" [])
                  (generateAdminToken c (Path u)) ;;
  req <- on_error (wrapf "create DELETE %s request failed" [u])
                  (http_NewRequest "DELETE" u None) ;;
  let req := Header_Add "Authorization" tok req in
  retry_block c (client_Do req)
    (wrapf "client DELETE %s failed" [u])
    (fun _ => ret tt)
    fuel false.

Definition UpdateAdmin (c : AdminClient) (id : string) (uar : UpdateAdminRequest)
    (fuel : nat) : M Admin :=
  body <- on_error (fun err => errs_Wrap 500 err "error marshaling request")
                   (lift (json_Marshal_UpdateAdminRequest uar)) ;;
  let u := ResolveReference (endpoint c)
             (url_ref (path_Join [adminURLPrefix; "admins"; id]) []) in
  tok <- on_error (wrapf "error generating admin token" [])
                  (generateAdminToken c (Path u)) ;;
  req <- on_error (wrapf "create PUT %s request failed" [u])
                  (http_NewRequest "PATCH" u (Some body)) ;;
  let req := Header_Add "Authorization" tok req in
  retry_block c (client_Do req)
    (wrapf "client PUT %s failed" [u])
    (fun resp =>
       on_error (wrapf "error reading %s" [u])
                (readProtoJSON protojson_Unmarshal_Admin (Body resp)))
    fuel false.

(** Modelled from the spec: [provisionerOptions] (ca/client.go is not among
    the sources).  The recognised options are the cursor, the limit and the
    id / name selector. *)
Record provisionerOptions : Type := {
  prov_cursor : string;
  prov_limit : Z;
  prov_id : string;
  prov_name : string
}.

Definition ProvisionerOption : Type :=
  provisionerOptions -> Error + provisionerOptions.

(** Modelled from the spec: [provisionerOptions.apply] (ca/client.go is not
    among the sources); the functional-options loop of [adminOptions.apply]. *)
Fixpoint provisionerOptions_apply (o : provisionerOptions)
    (opts : list ProvisionerOption) : Error + provisionerOptions :=
  match opts with
  | [] => inr o
  | fn :: rest =>
      match fn o with
      | inl err => inl err
      | inr o' => provisionerOptions_apply o' rest
      end
  end.

(** Modelled from the spec: [provisionerOptions.rawQuery] (ca/client.go is
    not among the sources).  List requests carry [cursor] and [limit] as for
    admins; a lookup by id carries [id]. *)
Definition provisionerOptions_rawQuery (o : provisionerOptions)
  : list (string * string) :=
  let v : Values := [] in
  let v := if (0 <? String.length (prov_cursor o))%nat
           then Values_Set "cursor" (prov_cursor o) v else v in
  let v := if (0 <? prov_limit o)%Z
           then Values_Set "limit" (strconv_Itoa (prov_limit o)) v else v in
  let v := if (0 <? String.length (prov_id o))%nat
           then Values_Set "id" (prov_id o) v else v in
  Values_Encode v.

(** Modelled from the spec: [WithProvisionerCursor] (ca/client.go is not
    among the sources); it sets the cursor. *)
Definition WithProvisionerCursor (cursor : string) : ProvisionerOption :=
  fun o => inr {| prov_cursor := cursor; prov_limit := prov_limit o;
                  prov_id := prov_id o; prov_name := prov_name o |}.

(** Modelled from the spec: [WithProvisionerLimit] (ca/client.go is not
    among the sources); it sets the page size. *)
Definition WithProvisionerLimit (limit : Z) : ProvisionerOption :=
  fun o => inr {| prov_cursor := prov_cursor o; prov_limit := limit;
                  prov_id := prov_id o; prov_name := prov_name o |}.

(** [new(provisionerOptions)] *)
Definition new_provisionerOptions : provisionerOptions :=
  {| prov_cursor := ""; prov_limit := 0; prov_id := ""; prov_name := "" |}.

Definition GetProvisioner (c : AdminClient) (opts : list ProvisionerOption)
    (fuel : nat) : M Provisioner :=
  o <- lift (provisionerOptions_apply new_provisionerOptions opts) ;;
  u <- (if (0 <? String.length (prov_id o))%nat then
          ret (ResolveReference (endpoint c)
                 (url_ref "/admin/provisioners/id" (provisionerOptions_rawQuery o)))
        else if (0 <? String.length (prov_name o))%nat then
          ret (ResolveReference (endpoint c)
                 (url_ref (path_Join [adminURLPrefix; "provisioners"; prov_name o]) []))
        else fail (errors_New "must set either name or id in method options")) ;;
  tok <- on_error (wrapf "error generating admin token" [])
                  (generateAdminToken c (Path u)) ;;
  req <- on_error (wrapf "create PUT %s request failed" [u])
                  (http_NewRequest "GET" u None) ;;
  let req := Header_Add "Authorization" tok req in
  retry_block c (client_Do req)
    (wrapf "client GET %s failed" [u])
    (fun resp =>
       on_error (wrapf "error reading %s" [u])
                (readProtoJSON protojson_Unmarshal_Provisioner (Body resp)))
    fuel false.

Definition GetProvisionersPaginate (c : AdminClient)
    (opts : list ProvisionerOption) (fuel : nat)
  : M (GetProvisionersResponse ProvisionerInterface) :=
  o <- lift (provisionerOptions_apply new_provisionerOptions opts) ;;
  let u := ResolveReference (endpoint c)
             (url_ref "/admin/provisioners" (provisionerOptions_rawQuery o)) in
  tok <- on_error (wrapf "error generating admin token" [])
                  (generateAdminToken c (Path u)) ;;
  req <- on_error (wrapf "create PUT %s request failed" [u])
                  (http_NewRequest "GET" u None) ;;
  let req := Header_Add "Authorization" tok req in
  retry_block c (client_Do req)
    (wrapf "client GET %s failed" [u])
    (fun resp =>
       on_error (wrapf "error reading %s" [u])
                (readJSON json_Decode_GetProvisionersResponse (Body resp)))
    fuel false.

(** The [for] loop of [GetProvisioners]. *)
Fixpoint GetProvisioners_loop (c : AdminClient) (fuel pages : nat)
    (cursor : string) (provs : list ProvisionerInterface)
  : M (list ProvisionerInterface) :=
  match pages with
  | O => fun st => (OutOfFuel, st)
  | S pages' =>
      resp <- GetProvisionersPaginate c
                [WithProvisionerCursor cursor; WithProvisionerLimit 100] fuel ;;
      let provs := (provs ++ Provisioners resp)%list in
      if String.eqb (ProvisionersNextCursor resp) "" then ret provs
      else GetProvisioners_loop c fuel pages' (ProvisionersNextCursor resp) provs
  end.

Definition GetProvisioners (c : AdminClient) (opts : list AdminOption)
    (fuel : nat) : M (list ProvisionerInterface) :=
  GetProvisioners_loop c fuel fuel "" [].

Definition RemoveProvisioner (c : AdminClient) (opts : list ProvisionerOption)
    (fuel : nat) : M unit :=
  o <- lift (provisionerOptions_apply new_provisionerOptions opts) ;;
  u <- (if (0 <? String.length (prov_id o))%nat then
          ret (ResolveReference (endpoint c)
                 (url_ref (path_Join [adminURLPrefix; "provisioners/id"])
                          (provisionerOptions_rawQuery o)))
        else if (0 <? String.length (prov_name o))%nat then
          ret (ResolveReference (endpoint c)
                 (url_ref (path_Join [adminURLPrefix; "provisioners"; prov_name o]) []))
        else fail (errors_New "must set either name or id in method options")) ;;
  tok <- on_error (wrapf "error generating admin token" [])
                  (generateAdminToken c (Path u)) ;;
  req <- on_error (wrapf "create DELETE %s request failed" [u])
                  (http_NewRequest "DELETE" u None) ;;
  let req := Header_Add "Authorization" tok req in
  retry_block c (client_Do req)
    (wrapf "client DELETE %s failed" [u])
    (fun _ => ret tt)
    fuel false.

Definition CreateProvisioner (c : AdminClient) (prov : Provisioner) (fuel : nat)
  : M Provisioner :=
  body <- on_error (fun err => errs_Wrap 500 err "error marshaling request")
                   (lift (protojson_Marshal prov)) ;;
  let u := ResolveReference (endpoint c)
             (url_ref (path_Join [adminURLPrefix; "provisioners"]) []) in
  tok <- on_error (wrapf "error generating admin token" [])
                  (generateAdminToken c (Path u)) ;;
  req <- on_error (wrapf "create POST %s request failed" [u])
                  (http_NewRequest "POST" u (Some body)) ;;
  let req := Header_Add "Authorization" tok req in
  retry_block c (client_Do req)
    (wrapf "client POST %s failed" [u])
    (fun resp =>
       on_error (wrapf "error reading %s" [u])
                (readProtoJSON protojson_Unmarshal_Provisioner (Body resp)))
    fuel false.

Definition UpdateProvisioner (c : AdminClient) (name : string)
    (prov : Provisioner) (fuel : nat) : M unit :=
  body <- on_error (fun err => errs_Wrap 500 err "error marshaling request")
                   (lift (protojson_Marshal prov)) ;;
  let u := ResolveReference (endpoint c)
             (url_ref (path_Join [adminURLPrefix; "provisioners"; name]) []) in
  tok <- on_error (wrapf "error generating admin token" [])
                  (generateAdminToken c (Path u)) ;;
  req <- on_error (wrapf "create PUT %s request failed" [u])
                  (http_NewRequest "PUT" u (Some body)) ;;
  let req := Header_Add "Authorization" tok req in
  retry_block c (client_Do req)
    (wrapf "client PUT %s failed" [u])
    (fun _ => ret tt)
    fuel false.

(** ** The ten request operations as one family *)

Inductive Call : Type :=
| CallGetAdmin (id : string)
| CallGetAdminsPaginate (opts : list AdminOption)
| CallCreateAdmin (createAdminRequest : CreateAdminRequest)
| CallRemoveAdmin (id : string)
| CallUpdateAdmin (id : string) (uar : UpdateAdminRequest)
| CallGetProvisioner (opts : list ProvisionerOption)
| CallGetProvisionersPaginate (opts : list ProvisionerOption)
| CallRemoveProvisioner (opts : list ProvisionerOption)
| CallCreateProvisioner (prov : Provisioner)
| CallUpdateProvisioner (name : string) (prov : Provisioner).

Inductive Value : Type :=
| VAdmin (adm : Admin)
| VAdmins (body : GetAdminsResponse Admin)
| VProvisioner (prov : Provisioner)
| VProvisioners (body : GetProvisionersResponse ProvisionerInterface)
| VNil.

Definition exec (c : AdminClient) (call : Call) (fuel : nat) : M Value :=
  match call with
  | CallGetAdmin id => adm <- GetAdmin c id fuel ;; ret (VAdmin adm)
  | CallGetAdminsPaginate opts =>
      body <- GetAdminsPaginate c opts fuel ;; ret (VAdmins body)
  | CallCreateAdmin r => adm <- CreateAdmin c r fuel ;; ret (VAdmin adm)
  | CallRemoveAdmin id => RemoveAdmin c id fuel ;;; ret VNil
  | CallUpdateAdmin id uar => adm <- UpdateAdmin c id uar fuel ;; ret (VAdmin adm)
  | CallGetProvisioner opts =>
      prov <- GetProvisioner c opts fuel ;; ret (VProvisioner prov)
  | CallGetProvisionersPaginate opts =>
      body <- GetProvisionersPaginate c opts fuel ;; ret (VProvisioners body)
  | CallRemoveProvisioner opts => RemoveProvisioner c opts fuel ;;; ret VNil
  | CallCreateProvisioner prov =>
      nuProv <- CreateProvisioner c prov fuel ;; ret (VProvisioner nuProv)
  | CallUpdateProvisioner name prov => UpdateProvisioner c name prov fuel ;;; ret VNil
  end.

End Operations.

(** ** A fake CA, as a test would set it up

    Resources and bodies are strings, transports are numbered, every
    library check passes.  [fix_pages] is a CA that serves three pages of
    admins (and of provisioners), keyed by the cursor of the request;
    [fix_revoked] answers every request with 401. *)
Module Fixture.

Definition page_of (body : string) : option (list string * string) :=
  if String.eqb body "page1" then Some (["a1"; "a2"], "c1")
  else if String.eqb body "page2" then Some (["a3"], "c2")
  else if String.eqb body "page3" then Some (["a4"; "a5"], "")
  else None.

Definition join (elem : list string) : string :=
  String.concat "/" (filter (fun s => negb (String.eqb s "")) elem).

Definition resolve (base ref : URL) : URL :=
  {| Scheme := Scheme base; Host := Host base;
     Path := if String.prefix "/" (Path ref) then Path ref
             else String.append "/" (Path ref);
     RawQuery := RawQuery ref |}.

Definition deps_with (apply : list string -> Error + list string) : Deps :=
  {| Admin := string;
     Provisioner := string;
     ProvisionerInterface := string;
     CreateAdminRequest := string;
     UpdateAdminRequest := string;
     ClientOption := string;
     clientOptions := list string;
     RoundTripper := nat;
     PrivateKey := string;
     DefaultValidity := 300000000000;
     path_Join := join;
     ResolveReference := resolve;
     http_NewRequest_error := fun _ _ => None;
     clientOptions_apply := apply;
     clientOptions_getTransport := fun o _ => inr (List.length o);
     token_Options_error := fun _ => None;
     SignedString_error := fun _ _ => None;
     json_Marshal_CreateAdminRequest := fun r => inr r;
     json_Marshal_UpdateAdminRequest := fun r => inr r;
     protojson_Marshal := fun p => inr p;
     protojson_Unmarshal_Admin := fun b => inr b;
     protojson_Unmarshal_Provisioner := fun b => inr b;
     json_Decode_GetAdminsResponse := fun b =>
       match page_of b with
       | Some (items, next) => inr {| Admins := items; NextCursor := next |}
       | None => inl (external_error "encoding/json")
       end;
     json_Decode_GetProvisionersResponse := fun b =>
       match page_of b with
       | Some (items, next) =>
           inr {| Provisioners := items; ProvisionersNextCursor := next |}
       | None => inl (external_error "encoding/json")
       end;
     json_Decode_admin_Error := fun b => inr b |}.

(** the options resolve again: a rebuilt transport is available *)
Definition deps : Deps := deps_with (fun o => inr o).

(** the certificate named by the options is gone from the disk *)
Definition deps_stale : Deps :=
  deps_with (fun _ => inl (external_error "open admin.crt: no such file")).

Definition retry_on_401 : Z -> bool := fun code => Z.eqb code 401.

Definition client (D : Deps) (opts : list (@ClientOption D))
    (key : @PrivateKey D) (retry : option (Z -> bool)) : @AdminClient D :=
  {| endpoint := {| Scheme := "https"; Host := "ca.example.com";
                    Path := ""; RawQuery := [] |};
     retryFunc := retry;
     opts := opts;
     x5cJWK := Some {| KeyID := "kid-1"; Algorithm := "ES256"; Key := key |};
     x5cCertFile := "admin.crt";
     x5cCertStrs := ["MIIB-leaf"; "MIIB-intermediate"];
     x5cIssuer := "step-admin-client/1.0";
     x5cSubject := "step" |}.

Definition adminClient : @AdminClient deps :=
  @client deps ["WithRootFile"; "WithCertificate"] "key" (Some retry_on_401).

Definition adminClient_stale : @AdminClient deps_stale :=
  @client deps_stale ["WithRootFile"; "WithCertificate"] "key" (Some retry_on_401).

Definition cursor_of (req : @Request deps) : string :=
  match find (fun kv => String.eqb (fst kv) "cursor") (RawQuery (ReqURL req)) with
  | Some (_, v) => v
  | None => ""
  end.

Definition serve_pages (log : list (@Event deps)) (tr : nat) (req : @Request deps)
  : Error + Response :=
  let cur := cursor_of req in
  if String.eqb cur "" then inr {| StatusCode := 200; Body := "page1" |}
  else if String.eqb cur "c1" then inr {| StatusCode := 200; Body := "page2" |}
  else if String.eqb cur "c2" then inr {| StatusCode := 200; Body := "page3" |}
  else inr {| StatusCode := 404; Body := "no such cursor" |}.

(** 192 values of entropy: enough for three tokens *)
Definition tape : list nat := (seq 0 64 ++ seq 1 64 ++ seq 2 64)%list.

Definition state (D : Deps) (tr : @RoundTripper D)
    (server : list (@Event D) -> @RoundTripper D -> @Request D
              -> Error + Response) : @State D :=
  {| wEntropy := tape;
     wClock := fun n => (1700000000000000000 + Z.of_nat n * 1000000)%Z;
     wClockReads := 0;
     wServer := server;
     wTransport := tr;
     wLog := [] |}.

Definition fix_pages : @State deps := @state deps 0 serve_pages.

Definition fix_revoked : @State deps :=
  @state deps 0 (fun _ _ _ => inr {| StatusCode := 401; Body := "certificate revoked" |}).

Definition fix_revoked_stale : @State deps_stale :=
  @state deps_stale 0
        (fun _ _ _ => inr {| StatusCode := 401; Body := "certificate revoked" |}).

(** a CA that serves the first page and then fails *)
Definition serve_broken (log : list (@Event deps)) (tr : nat) (req : @Request deps)
  : Error + Response :=
  if String.eqb (cursor_of req) "" then inr {| StatusCode := 200; Body := "page1" |}
  else inr {| StatusCode := 500; Body := "internal error" |}.

Definition fix_broken : @State deps := @state deps 0 serve_broken.

Definition revoked : Response :=
  {| StatusCode := 401; Body := "certificate revoked" |}.

(** the key of [adminClient] *)
Definition key1 : @JSONWebKey deps := @Build_JSONWebKey deps "kid-1" "ES256" "key".

(** the three pages of [serve_pages], decoded *)
Definition page1 : GetAdminsResponse string :=
  {| Admins := ["a1"; "a2"]; NextCursor := "c1" |}.
Definition page2 : GetAdminsResponse string :=
  {| Admins := ["a3"]; NextCursor := "c2" |}.
Definition page3 : GetAdminsResponse string :=
  {| Admins := ["a4"; "a5"]; NextCursor := "" |}.

Definition ppage1 : GetProvisionersResponse string :=
  {| Provisioners := ["a1"; "a2"]; ProvisionersNextCursor := "c1" |}.
Definition ppage2 : GetProvisionersResponse string :=
  {| Provisioners := ["a3"]; ProvisionersNextCursor := "c2" |}.
Definition ppage3 : GetProvisionersResponse string :=
  {| Provisioners := ["a4"; "a5"]; ProvisionersNextCursor := "" |}.

(** an option that sets both selectors *)
Definition with_id_and_name : ProvisionerOption :=
  fun o => inr {| prov_cursor := prov_cursor o; prov_limit := prov_limit o;
                  prov_id := "p-1"; prov_name := "acme" |}.

Definition fix_unreachable : @State deps :=
  @state deps 0 (fun _ _ _ => inl (external_error "dial tcp: connection refused")).

End Fixture.

(** ** Observations on a run *)

Section Observations.
Context {D : Deps}.
Local Open Scope go_scope.

Definition is_send (ev : Event) : bool :=
  match ev with
  | EvSend _ _ _ => true
  | _ => false
  end.

(** the round trips of a log, in order *)
Definition sends (l : list Event) : list Event := filter is_send l.

(** the error [readAdminError] returns for a body *)
Definition admin_error (body : string) : Error :=
  match json_Decode_admin_Error body with
  | inl err => err
  | inr message => errors_New message
  end.

(** the configured predicate recognises the status *)
Definition recognises (c : AdminClient) (code : Z) : bool :=
  match retryFunc c with
  | Some f => f code
  | None => false
  end.

(** the transport rebuilt from the original options, when both
    [o.apply(c.opts)] and [o.getTransport] succeed *)
Definition rebuild (c : AdminClient) : option RoundTripper :=
  match clientOptions_apply (opts c) with
  | inl _ => None
  | inr o =>
      match clientOptions_getTransport o (endpoint c) with
      | inl _ => None
      | inr tr => Some tr
      end
  end.

Definition retry_signal (c : AdminClient) (r : Response) : bool :=
  recognises c (StatusCode r) &&
  match rebuild c with Some _ => true | None => false end.

(** the state [retryOnError] leaves *)
Definition retry_state (c : AdminClient) (r : Response) (st : State) : State :=
  match retryFunc c with
  | None => st
  | Some f =>
      let st1 := log_event (EvRetryFunc (StatusCode r)) st in
      if f (StatusCode r) then
        match rebuild c with
        | Some tr =>
            set_transport tr
              (log_event (EvSetTransport tr) (log_event (EvClose (Body r)) st1))
        | None => st1
        end
      else st1
  end.

(** the state after one round trip of [req], and its result *)
Definition round_trip (req : Request) (st : State) : Error + Response :=
  wServer st (wLog st) (wTransport st) req.

Definition after_send (req : Request) (st : State) : State :=
  log_event (EvSend (wTransport st) req (round_trip req st)) st.

(** The [retry:] block written as a call and at most one replay. *)
Definition two_attempts {A} (c : AdminClient) (req : Request)
    (wrap : Error -> Error) (decode : Response -> M A) : M A :=
  fun st =>
    let st1 := after_send req st in
    match round_trip req st with
    | inl e => (Fail (wrap e), st1)
    | inr r1 =>
        if (400 <=? StatusCode r1)%Z then
          let st2 := retry_state c r1 st1 in
          if retry_signal c r1 then
            let st3 := after_send req st2 in
            match round_trip req st2 with
            | inl e => (Fail (wrap e), st3)
            | inr r2 =>
                if (400 <=? StatusCode r2)%Z
                then (Fail (admin_error (Body r2)),
                      log_event (EvClose (Body r2)) st3)
                else decode r2 st3
            end
          else (Fail (admin_error (Body r1)), log_event (EvClose (Body r1)) st2)
        else decode r1 st1
    end.

(** [st1] differs from [st] in entropy and clock only *)
Definition same_net (st st1 : State) : Prop :=
  wLog st1 = wLog st /\ wTransport st1 = wTransport st /\
  wServer st1 = wServer st.

(** a computation that leaves log, transport and server as they are *)
Definition silent {A} (m : M A) : Prop :=
  forall st, same_net st (snd (m st)) /\ fst (m st) <> OutOfFuel.

(** a computation that performs no round trip and leaves the transport *)
Definition quiet {A} (m : M A) : Prop :=
  forall st,
    fst (m st) <> OutOfFuel /\
    wTransport (snd (m st)) = wTransport st /\
    wServer (snd (m st)) = wServer st /\
    exists l, wLog (snd (m st)) = (wLog st ++ l)%list /\ sends l = [].

(** A run of an operation: it returns before any round trip, or it reaches
    its [retry:] block with a request that satisfies [P]. *)
Inductive Runs {A} (P : Request -> Prop) (c : AdminClient) (st : State)
  : outcome A * State -> Prop :=
| runs_early : forall r st1,
    same_net st st1 ->
    (forall a, r <> Ret a) -> r <> OutOfFuel ->
    Runs P c st (r, st1)
| runs_block : forall st1 req format decode,
    same_net st st1 ->
    P req ->
    (forall resp, quiet (decode resp)) ->
    Runs P c st (two_attempts c req (wrapf format [ReqURL req]) decode st1).

(** The events of one [retry:] block started in [st] for [req], with its
    outcome and the transport it leaves installed. *)
Inductive block_trace {A} (c : AdminClient) (req : Request)
    (wrap : Error -> Error) (st : State)
  : list Event -> outcome A -> RoundTripper -> Prop :=
| bt_send_failed : forall e,
    round_trip req st = inl e ->
    block_trace c req wrap st
      [EvSend (wTransport st) req (inl e)]
      (Fail (wrap e)) (wTransport st)
| bt_answered : forall r1 ld r,
    round_trip req st = inr r1 ->
    (StatusCode r1 < 400)%Z ->
    sends ld = [] -> r <> OutOfFuel ->
    block_trace c req wrap st
      (EvSend (wTransport st) req (inr r1) :: ld)
      r (wTransport st)
| bt_refused : forall r1 lr,
    round_trip req st = inr r1 ->
    (400 <= StatusCode r1)%Z ->
    recognises c (StatusCode r1) = false \/ rebuild c = None ->
    sends lr = [] ->
    block_trace c req wrap st
      (EvSend (wTransport st) req (inr r1) :: lr ++ [EvClose (Body r1)])
      (Fail (admin_error (Body r1))) (wTransport st)
| bt_replay_failed : forall r1 tr2 e,
    round_trip req st = inr r1 ->
    (400 <= StatusCode r1)%Z ->
    recognises c (StatusCode r1) = true -> rebuild c = Some tr2 ->
    block_trace c req wrap st
      [EvSend (wTransport st) req (inr r1); EvRetryFunc (StatusCode r1);
       EvClose (Body r1); EvSetTransport tr2; EvSend tr2 req (inl e)]
      (Fail (wrap e)) tr2
| bt_replay_refused : forall r1 tr2 r2,
    round_trip req st = inr r1 ->
    (400 <= StatusCode r1)%Z ->
    recognises c (StatusCode r1) = true -> rebuild c = Some tr2 ->
    (400 <= StatusCode r2)%Z ->
    block_trace c req wrap st
      [EvSend (wTransport st) req (inr r1); EvRetryFunc (StatusCode r1);
       EvClose (Body r1); EvSetTransport tr2; EvSend tr2 req (inr r2);
       EvClose (Body r2)]
      (Fail (admin_error (Body r2))) tr2
| bt_replay_answered : forall r1 tr2 r2 ld r,
    round_trip req st = inr r1 ->
    (400 <= StatusCode r1)%Z ->
    recognises c (StatusCode r1) = true -> rebuild c = Some tr2 ->
    (StatusCode r2 < 400)%Z ->
    sends ld = [] -> r <> OutOfFuel ->
    block_trace c req wrap st
      ([EvSend (wTransport st) req (inr r1); EvRetryFunc (StatusCode r1);
        EvClose (Body r1); EvSetTransport tr2; EvSend tr2 req (inr r2)] ++ ld)
      r tr2.

(** The events of one operation: none when it returns before its block. *)
Inductive call_trace {A} (P : Request -> Prop) (c : AdminClient) (st : State)
  : list Event -> outcome A -> RoundTripper -> Prop :=
| ct_early : forall r,
    (forall a, r <> Ret a) -> r <> OutOfFuel ->
    call_trace P c st [] r (wTransport st)
| ct_block : forall req format l r tr,
    P req ->
    block_trace c req (wrapf format [ReqURL req]) st l r tr ->
    call_trace P c st l r tr.

(** the page fetches issued by the two aggregators *)
Definition fetch_admins (c : AdminClient) (fuel : nat) (cursor : string)
  : M (GetAdminsResponse Admin) :=
  GetAdminsPaginate c [WithAdminCursor cursor; WithAdminLimit 100] fuel.

Definition fetch_provisioners (c : AdminClient) (fuel : nat) (cursor : string)
  : M (GetProvisionersResponse ProvisionerInterface) :=
  GetProvisionersPaginate c
    [WithProvisionerCursor cursor; WithProvisionerLimit 100] fuel.

(** [page_run fetch next cur st ps cur' st']: from [st], fetching with
    cursor [cur] and then with the cursor each page names yields the pages
    [ps], none of them the last one, and leaves cursor [cur'] and state
    [st']. *)
Inductive page_run {P} (fetch : string -> M P) (next : P -> string)
  : string -> State -> list P -> string -> State -> Prop :=
| page_run_nil : forall cur st, page_run fetch next cur st [] cur st
| page_run_cons : forall cur st p st1 ps cur' st',
    fetch cur st = (Ret p, st1) ->
    next p <> "" ->
    page_run fetch next (next p) st1 ps cur' st' ->
    page_run fetch next cur st (p :: ps) cur' st'.

(** the URL of a page of admins / provisioners for a cursor *)
Definition admins_page_url (c : AdminClient) (cur : string) : URL :=
  ResolveReference (endpoint c)
    (url_ref "/admin/admins"
       (adminOptions_rawQuery {| cursor := cur; limit := 100 |})).

Definition provisioners_page_url (c : AdminClient) (cur : string) : URL :=
  ResolveReference (endpoint c)
    (url_ref "/admin/provisioners"
       (provisionerOptions_rawQuery
          {| prov_cursor := cur; prov_limit := 100;
             prov_id := ""; prov_name := "" |})).

(** the value of a character of [hex_alphabet] *)
Definition hex_val (ch : ascii) : nat :=
  match String.index 0 (String ch EmptyString) hex_alphabet with
  | Some i => i
  | None => 0
  end.

(** [tok] is the admin token of [c] for [urlPath], with the JWT id drawn as
    [draws] and the clock read as [now] *)
Definition minted (c : AdminClient) (jwk : JSONWebKey) (urlPath : string)
    (draws : list nat) (now : Z) (tok : Token) : Prop :=
  aud (tokClaims tok) = [urlPath] /\
  nbf (tokClaims tok) = now /\
  exp (tokClaims tok) = (now + DefaultValidity)%Z /\
  (nbf (tokClaims tok) < exp (tokClaims tok))%Z /\
  kid (tokClaims tok) = KeyID jwk /\
  iss (tokClaims tok) = x5cIssuer c /\
  sub (tokClaims tok) = x5cSubject c /\
  x5c (tokClaims tok) = x5cCertStrs c /\
  tokAlgorithm tok = Algorithm jwk /\
  tokKey tok = Key jwk /\
  jti (tokClaims tok) = hex_of draws /\
  (256 <= 4 * String.length (jti (tokClaims tok)))%nat.

(** every round trip of a log is for a request that satisfies [P] *)
Definition all_sent (P : Request -> Prop) (l : list Event) : Prop :=
  forall tr req res, In (EvSend tr req res) l -> P req.

End Observations.

(** ** Finer observations: minting, wire format, open bodies *)

Section Closer.
Context {D : Deps}.
Local Open Scope go_scope.

(** [st1] is [st], or [st] after one mint *)
Definition mint_frame (c : AdminClient) (st st1 : State) : Prop :=
  st1 = st \/ exists urlPath, st1 = snd (generateAdminToken c urlPath st).

(** a computation that changes the state in no way and cannot loop *)
Definition pure_step {A} (m : M A) : Prop :=
  forall st, snd (m st) = st /\ fst (m st) <> OutOfFuel.

(** a computation that reads neither the entropy nor the clock *)
Definition keeps_tape {A} (m : M A) : Prop :=
  forall st,
    wEntropy (snd (m st)) = wEntropy st /\
    wClockReads (snd (m st)) = wClockReads st.

(** A run of an operation, as [Runs], with the state at the block related
    to the initial one by [mint_frame] and a property [Q] of the request,
    of the format of the send error and of the decoder. *)
Inductive Reaches {A} (Q : Request -> string -> (Response -> M A) -> Prop)
    (c : AdminClient) (st : State) : outcome A * State -> Prop :=
| reaches_early : forall r st1,
    mint_frame c st st1 ->
    (forall a, r <> Ret a) -> r <> OutOfFuel ->
    Reaches Q c st (r, st1)
| reaches_block : forall st1 req format decode,
    mint_frame c st st1 ->
    Q req format decode ->
    Reaches Q c st (two_attempts c req (wrapf format [ReqURL req]) decode st1).

(** the operations that call [generateAdminToken] *)
Definition mints_token (call : Call) : bool :=
  match call with
  | CallGetAdmin _ => false
  | _ => true
  end.

(** the operations that return only an error *)
Definition returns_error_only (call : Call) : bool :=
  match call with
  | CallRemoveAdmin _ | CallRemoveProvisioner _ | CallUpdateProvisioner _ _ => true
  | _ => false
  end.

(** [req] carries one header, an Authorization token of [c] for the path
    of its URL *)
Definition authorized (c : AdminClient) (req : Request) : Prop :=
  exists tok jwk,
    x5cJWK c = Some jwk /\
    Header req = [("Authorization", tok)] /\
    aud (tokClaims tok) = [Path (ReqURL req)] /\
    kid (tokClaims tok) = KeyID jwk /\
    iss (tokClaims tok) = x5cIssuer c /\
    sub (tokClaims tok) = x5cSubject c /\
    x5c (tokClaims tok) = x5cCertStrs c /\
    exp (tokClaims tok) = (nbf (tokClaims tok) + DefaultValidity)%Z /\
    tokAlgorithm tok = Algorithm jwk /\
    tokKey tok = Key jwk.

(** the URL of a provisioner lookup, as the [switch] of [GetProvisioner]
    and [RemoveProvisioner] picks it; [byId] is the path of the id form *)
Definition selector_url (c : AdminClient) (byId : string)
    (o : provisionerOptions) : URL :=
  if (0 <? String.length (prov_id o))%nat then
    ResolveReference (endpoint c) (url_ref byId (provisionerOptions_rawQuery o))
  else
    ResolveReference (endpoint c)
      (url_ref (path_Join [adminURLPrefix; "provisioners"; prov_name o]) []).

(** method, URL and body of the request of each operation *)
Definition on_wire (c : AdminClient) (call : Call) (req : Request) : Prop :=
  match call with
  | CallGetAdmin id =>
      Method req = "GET" /\ ReqBody req = None /\
      ReqURL req = ResolveReference (endpoint c)
                     (url_ref (path_Join [adminURLPrefix; "admins"; id]) [])
  | CallGetAdminsPaginate opts =>
      exists o, adminOptions_apply new_adminOptions opts = inr o /\
      Method req = "GET" /\ ReqBody req = None /\
      ReqURL req = ResolveReference (endpoint c)
                     (url_ref "/admin/admins" (adminOptions_rawQuery o))
  | CallCreateAdmin r =>
      exists body, json_Marshal_CreateAdminRequest r = inr body /\
      Method req = "POST" /\ ReqBody req = Some body /\
      ReqURL req = ResolveReference (endpoint c) (url_ref "/admin/admins" [])
  | CallRemoveAdmin id =>
      Method req = "DELETE" /\ ReqBody req = None /\
      ReqURL req = ResolveReference (endpoint c)
                     (url_ref (path_Join [adminURLPrefix; "admins"; id]) [])
  | CallUpdateAdmin id uar =>
      exists body, json_Marshal_UpdateAdminRequest uar = inr body /\
      Method req = "PATCH" /\ ReqBody req = Some body /\
      ReqURL req = ResolveReference (endpoint c)
                     (url_ref (path_Join [adminURLPrefix; "admins"; id]) [])
  | CallGetProvisioner opts =>
      exists o, provisionerOptions_apply new_provisionerOptions opts = inr o /\
      (prov_id o <> "" \/ prov_name o <> "") /\
      Method req = "GET" /\ ReqBody req = None /\
      ReqURL req = selector_url c "/admin/provisioners/id" o
  | CallGetProvisionersPaginate opts =>
      exists o, provisionerOptions_apply new_provisionerOptions opts = inr o /\
      Method req = "GET" /\ ReqBody req = None /\
      ReqURL req = ResolveReference (endpoint c)
                     (url_ref "/admin/provisioners" (provisionerOptions_rawQuery o))
  | CallRemoveProvisioner opts =>
      exists o, provisionerOptions_apply new_provisionerOptions opts = inr o /\
      (prov_id o <> "" \/ prov_name o <> "") /\
      Method req = "DELETE" /\ ReqBody req = None /\
      ReqURL req = selector_url c (path_Join [adminURLPrefix; "provisioners/id"]) o
  | CallCreateProvisioner prov =>
      exists body, protojson_Marshal prov = inr body /\
      Method req = "POST" /\ ReqBody req = Some body /\
      ReqURL req = ResolveReference (endpoint c)
                     (url_ref (path_Join [adminURLPrefix; "provisioners"]) [])
  | CallUpdateProvisioner name prov =>
      exists body, protojson_Marshal prov = inr body /\
      Method req = "PUT" /\ ReqBody req = Some body /\
      ReqURL req = ResolveReference (endpoint c)
                     (url_ref (path_Join [adminURLPrefix; "provisioners"; name]) [])
  end.

(** what an operation knows of its request and decoder at the block *)
Definition at_block (c : AdminClient) (call : Call)
    (req : Request) (format : string) (decode : Response -> M Value) : Prop :=
  on_wire c call req /\
  (if mints_token call then authorized c req else Header req = []) /\
  (forall resp, quiet (decode resp)) /\
  (forall resp, keeps_tape (decode resp)) /\
  (returns_error_only call = true ->
   forall resp st, decode resp st = (Ret VNil, st)).

Fixpoint remove_first (b : string) (open : list string) : list string :=
  match open with
  | [] => []
  | x :: rest => if String.eqb x b then rest else x :: remove_first b rest
  end.

(** the response bodies of a log that were received and not closed, given
    those [open] before it *)
Fixpoint open_bodies (l : list Event) (open : list string) : list string :=
  match l with
  | [] => open
  | EvSend _ _ (inr resp) :: l' => open_bodies l' (open ++ [Body resp])
  | EvClose b :: l' => open_bodies l' (remove_first b open)
  | _ :: l' => open_bodies l' open
  end.

(** the responses of a log, in order *)
Fixpoint responses (l : list Event) : list Response :=
  match l with
  | [] => []
  | EvSend _ _ (inr resp) :: l' => resp :: responses l'
  | _ :: l' => responses l'
  end.

End Closer.

(** ** More of the fake CA: faults *)
Module Faults.
Import Fixture.

(** an option that fails *)
Definition bad_option : AdminOption :=
  fun _ => inl (errors_New "bad option").

Definition bad_provisioner_option : ProvisionerOption :=
  fun _ => inl (errors_New "bad option").

(** a random source that has run dry *)
Definition fix_dry : @State deps :=
  {| wEntropy := seq 0 10;
     wClock := fun _ => 0%Z;
     wClockReads := 0;
     wServer := serve_pages;
     wTransport := 0;
     wLog := [] |}.

(** a client built without the x5c options *)
Definition adminClient_nokey : @AdminClient deps :=
  {| endpoint := endpoint adminClient;
     retryFunc := Some retry_on_401;
     opts := [];
     x5cJWK := None;
     x5cCertFile := "";
     x5cCertStrs := [];
     x5cIssuer := "";
     x5cSubject := "" |}.

(** a request that cannot be marshalled *)
Definition deps_unmarshalable : Deps :=
  {| Admin := string;
     Provisioner := string;
     ProvisionerInterface := string;
     CreateAdminRequest := string;
     UpdateAdminRequest := string;
     ClientOption := string;
     clientOptions := list string;
     RoundTripper := nat;
     PrivateKey := string;
     DefaultValidity := 300000000000;
     path_Join := join;
     ResolveReference := resolve;
     http_NewRequest_error := fun _ _ => None;
     clientOptions_apply := fun o => inr o;
     clientOptions_getTransport := fun o _ => inr (List.length o);
     token_Options_error := fun _ => None;
     SignedString_error := fun _ _ => None;
     json_Marshal_CreateAdminRequest := fun _ => inl (external_error "json: unsupported value");
     json_Marshal_UpdateAdminRequest := fun _ => inl (external_error "json: unsupported value");
     protojson_Marshal := fun _ => inl (external_error "proto: invalid UTF-8");
     protojson_Unmarshal_Admin := fun b => inr b;
     protojson_Unmarshal_Provisioner := fun b => inr b;
     json_Decode_GetAdminsResponse := fun _ => inl (external_error "encoding/json");
     json_Decode_GetProvisionersResponse := fun _ => inl (external_error "encoding/json");
     json_Decode_admin_Error := fun b => inr b |}.

Definition adminClient_unmarshalable : @AdminClient deps_unmarshalable :=
  @client deps_unmarshalable [] "key" None.

Definition fix_unmarshalable : @State deps_unmarshalable :=
  @state deps_unmarshalable 0
         (fun _ _ _ => inr {| StatusCode := 200; Body := "ok" |}).

(** a CA that accepts everything *)
Definition fix_ok : @State deps :=
  @state deps 0 (fun _ _ _ => inr {| StatusCode := 204; Body := "" |}).

(** a CA whose first answer is a 401 and whose later answers are 204 *)
Definition serve_after_rotation (log : list (@Event deps)) (tr : nat)
    (req : @Request deps) : Error + Response :=
  match log with
  | [] => inr revoked
  | _ => inr {| StatusCode := 204; Body := "" |}
  end.

Definition fix_rotation : @State deps := @state deps 0 serve_after_rotation.

(** a CA that names a next cursor on every page *)
Definition fix_endless : @State deps :=
  @state deps 0 (fun _ _ _ => inr {| StatusCode := 200; Body := "page1" |}).

End Faults.

(** * Properties *)

Unset Implicit Arguments.

Section TokenMinter.
Context {D : Deps}.

Lemma hex_val_char (n : nat) : hex_val (hex_char n) = n mod 16.
Proof.
  unfold hex_char.
  assert (H : n mod 16 < 16) by (apply Nat.mod_upper_bound; discriminate).
  destruct (n mod 16) as [|m]; [reflexivity|].
  do 15 (destruct m as [|m]; [reflexivity|]).
  lia.
Qed.

Lemma hex_of_inj (l1 l2 : list nat) :
  hex_of l1 = hex_of l2 ->
  map (fun n => n mod 16) l1 = map (fun n => n mod 16) l2.
Proof.
  unfold hex_of. intros H.
  apply (f_equal list_ascii_of_string) in H.
  rewrite !list_ascii_of_string_of_list_ascii in H.
  apply (f_equal (map hex_val)) in H.
  rewrite !map_map in H.
  erewrite (map_ext _ (fun n => n mod 16)) in H by (intros; apply hex_val_char).
  symmetry.
  erewrite (map_ext _ (fun n => hex_val (hex_char n)))
    by (intros; symmetry; apply hex_val_char).
  symmetry. exact H.
Qed.

Lemma hex_of_length (l : list nat) : String.length (hex_of l) = List.length l.
Proof.
  unfold hex_of. induction l as [|n l IH]; simpl; [reflexivity|].
  now rewrite IH.
Qed.

Lemma set_options_accepted (cl : Claims) (os : list token_Options) :
  Forall (fun o => token_Options_error o = None) os ->
  set_options cl os = inr (fold_left set_option os cl).
Proof.
  intros H. revert cl.
  induction H as [|o os Ho _ IH]; intros cl; simpl; [reflexivity|].
  rewrite Ho. apply IH.
Qed.

(** One successful mint, written out. *)
Lemma generateAdminToken_run (c : AdminClient) (jwk : JSONWebKey)
    (urlPath : string) (st : State) :
  x5cJWK c = Some jwk ->
  64 <= List.length (wEntropy st) ->
  (forall jwtID now,
      Forall (fun o => token_Options_error o = None)
             (tokOptions c jwk urlPath jwtID now)) ->
  SignedString_error (Algorithm jwk) (Key jwk) = None ->
  generateAdminToken c urlPath st =
  (Ret {| tokClaims :=
            mkClaims (hex_of (firstn 64 (wEntropy st)))
                     (KeyID jwk) (x5cIssuer c) (x5cSubject c) [urlPath]
                     (wClock st (wClockReads st))
                     (wClock st (wClockReads st) + DefaultValidity)%Z
                     (x5cCertStrs c);
          tokAlgorithm := Algorithm jwk;
          tokKey := Key jwk |},
   tick_clock (set_entropy (skipn 64 (wEntropy st)) st)).
Proof.
  intros Hjwk Hlen Hok Hsign.
  unfold generateAdminToken, bind, randutil_Hex, time_Now.
  apply Nat.leb_le in Hlen. rewrite Hlen. cbn [wClock wClockReads set_entropy].
  rewrite Hjwk. unfold provision_New.
  rewrite set_options_accepted by apply Hok.
  unfold lift, ret, SignedString. rewrite Hsign. reflexivity.
Qed.

(** C3.  For every target path, [generateAdminToken] mints a token whose
    audience is exactly that path, whose validity window is
    [now, now + DefaultValidity] and has positive length, whose key id,
    issuer, subject and certificate chain are the client's, and whose JWT id
    is the rendering of 64 fresh hexadecimal draws (256 bits) that the mint
    consumes; a second mint for the same path draws the next 64 values, and
    the two tokens differ whenever the two draws do. *)
Theorem generateAdminToken_fresh (c : AdminClient) (jwk : JSONWebKey)
    (urlPath : string) (st : State) :
  x5cJWK c = Some jwk ->
  128 <= List.length (wEntropy st) ->
  (forall jwtID now,
      Forall (fun o => token_Options_error o = None)
             (tokOptions c jwk urlPath jwtID now)) ->
  SignedString_error (Algorithm jwk) (Key jwk) = None ->
  (0 < DefaultValidity)%Z ->
  exists tok1 st1 tok2 st2,
    generateAdminToken c urlPath st = (Ret tok1, st1) /\
    generateAdminToken c urlPath st1 = (Ret tok2, st2) /\
    minted c jwk urlPath (firstn 64 (wEntropy st))
           (wClock st (wClockReads st)) tok1 /\
    minted c jwk urlPath (firstn 64 (skipn 64 (wEntropy st)))
           (wClock st1 (wClockReads st1)) tok2 /\
    wEntropy st1 = skipn 64 (wEntropy st) /\
    wEntropy st2 = skipn 64 (wEntropy st1) /\
    (map (fun n => n mod 16) (firstn 64 (wEntropy st)) <>
     map (fun n => n mod 16) (firstn 64 (skipn 64 (wEntropy st))) ->
     tok1 <> tok2).
Proof.
  intros Hjwk Hlen Hok Hsign Hpos.
  assert (Hlen1 : 64 <= List.length (wEntropy st)) by lia.
  pose proof (generateAdminToken_run c jwk urlPath st Hjwk Hlen1 Hok Hsign) as R1.
  set (st1 := tick_clock (set_entropy (skipn 64 (wEntropy st)) st)) in *.
  assert (Hlen2 : 64 <= List.length (wEntropy st1)).
  { subst st1. unfold tick_clock, set_entropy. cbn [wEntropy].
    rewrite length_skipn. lia. }
  pose proof (generateAdminToken_run c jwk urlPath st1 Hjwk Hlen2 Hok Hsign) as R2.
  eexists _, st1, _, _.
  split; [exact R1|]. split; [exact R2|].
  assert (L1 : List.length (firstn 64 (wEntropy st)) = 64)
    by (rewrite length_firstn; lia).
  assert (L2 : List.length (firstn 64 (skipn 64 (wEntropy st))) = 64)
    by (rewrite length_firstn, length_skipn; lia).
  split.
  { unfold minted.
    cbn [tokClaims aud nbf exp kid iss sub x5c jti tokAlgorithm tokKey].
    rewrite hex_of_length, L1.
    repeat split; try reflexivity; lia. }
  split.
  { unfold minted; subst st1. unfold tick_clock, set_entropy.
    cbn [tokClaims aud nbf exp kid iss sub x5c jti tokAlgorithm tokKey
         wEntropy wClock wClockReads].
    rewrite hex_of_length, L2.
    repeat split; try reflexivity; lia. }
  split; [reflexivity|]. split; [reflexivity|].
  intros Hdraws Heq. apply Hdraws.
  apply hex_of_inj.
  apply (f_equal (fun t => jti (tokClaims t))) in Heq.
  exact Heq.
Qed.

End TokenMinter.

Section RetryController.
Context {D : Deps}.

Lemma retryOnError_run (c : AdminClient) (r : Response) (st : State) :
  retryOnError c r st = (Ret (retry_signal c r), retry_state c r st).
Proof.
  unfold retryOnError, retry_signal, retry_state, recognises, rebuild.
  destruct (retryFunc c) as [f|]; [|reflexivity].
  destruct (f (StatusCode r)); [|reflexivity].
  destruct (clientOptions_apply (opts c)) as [e|o]; [reflexivity|].
  destruct (clientOptions_getTransport o (endpoint c)) as [e|tr]; reflexivity.
Qed.

(** C7.  Given a response whose status the configured predicate
    recognises, [retryOnError] re-applies the original options and rebuilds
    the transport; when both succeed it closes the failed body, installs the
    new transport and returns true; when either fails it returns false and
    touches neither the body nor the transport; without a predicate it
    returns false and does nothing. *)
Theorem retryOnError_contract (c : AdminClient) (r : Response) (st : State) :
  (forall f o tr,
      retryFunc c = Some f -> f (StatusCode r) = true ->
      clientOptions_apply (opts c) = inr o ->
      clientOptions_getTransport o (endpoint c) = inr tr ->
      retryOnError c r st =
      (Ret true,
       set_transport tr
         (log_event (EvSetTransport tr)
            (log_event (EvClose (Body r))
               (log_event (EvRetryFunc (StatusCode r)) st))))) /\
  (forall f e,
      retryFunc c = Some f -> f (StatusCode r) = true ->
      clientOptions_apply (opts c) = inl e ->
      retryOnError c r st =
      (Ret false, log_event (EvRetryFunc (StatusCode r)) st)) /\
  (forall f o e,
      retryFunc c = Some f -> f (StatusCode r) = true ->
      clientOptions_apply (opts c) = inr o ->
      clientOptions_getTransport o (endpoint c) = inl e ->
      retryOnError c r st =
      (Ret false, log_event (EvRetryFunc (StatusCode r)) st)) /\
  (retryFunc c = None -> retryOnError c r st = (Ret false, st)).
Proof.
  unfold retryOnError.
  repeat split.
  - intros f o tr Hf Hrec Happly Htr. rewrite Hf, Hrec, Happly, Htr. reflexivity.
  - intros f e Hf Hrec Happly. rewrite Hf, Hrec, Happly. reflexivity.
  - intros f o e Hf Hrec Happly Htr. rewrite Hf, Hrec, Happly, Htr. reflexivity.
  - intros Hf. rewrite Hf. reflexivity.
Qed.

Lemma bind_assoc {A B C} (m : M A) (k : A -> M B) (k' : B -> M C) (st : State) :
  bind (bind m k) k' st = bind m (fun a => bind (k a) k') st.
Proof.
  unfold bind. destruct (m st) as [[a|e| |] st1]; reflexivity.
Qed.

Lemma readAdminError_run (body : string) (st : State) :
  readAdminError body st = (Ret (admin_error body), log_event (EvClose body) st).
Proof.
  unfold readAdminError, admin_error, bind, Body_Close, ret.
  destruct (json_Decode_admin_Error body); reflexivity.
Qed.

Lemma bind_cong {A B} (m : M A) (k1 k2 : A -> M B) (st : State) :
  (forall a st', k1 a st' = k2 a st') -> bind m k1 st = bind m k2 st.
Proof.
  intros H. unfold bind. destruct (m st) as [[a|e| |] st1]; auto.
Qed.

(** What follows the block can be moved into its decoder. *)
Lemma retry_block_bind {A B} (c : AdminClient) (send : M Response)
    (wrap : Error -> Error) (decode : Response -> M A) (k : A -> M B)
    (fuel : nat) :
  forall retried st,
    bind (retry_block c send wrap decode fuel retried) k st =
    retry_block c send wrap (fun resp => bind (decode resp) k) fuel retried st.
Proof.
  induction fuel as [|fuel IH]; intros retried st; [reflexivity|].
  cbn [retry_block].
  rewrite bind_assoc. apply bind_cong. intros resp st1.
  destruct (400 <=? StatusCode resp)%Z; [|reflexivity].
  rewrite bind_assoc. apply bind_cong. intros again st2.
  destruct again; [apply IH|].
  rewrite bind_assoc. apply bind_cong. intros err st3. reflexivity.
Qed.

(** With fuel for two rounds the block is a call and at most one replay:
    beyond that the fuel does not matter. *)
Lemma retry_block_unroll {A} (c : AdminClient) (req : Request)
    (wrap : Error -> Error) (decode : Response -> M A) (fuel : nat)
    (st : State) :
  2 <= fuel ->
  retry_block c (client_Do req) wrap decode fuel false st =
  two_attempts c req wrap decode st.
Proof.
  intros Hfuel.
  destruct fuel as [|[|fuel]]; try lia.
  cbn [retry_block negb].
  unfold two_attempts, after_send, round_trip.
  unfold bind at 1. unfold on_error at 1. unfold client_Do at 1.
  destruct (wServer st (wLog st) (wTransport st) req) as [e|r1]; [reflexivity|].
  destruct (400 <=? StatusCode r1)%Z; [|reflexivity].
  unfold bind at 1. rewrite retryOnError_run.
  destruct (retry_signal c r1).
  - unfold bind at 1. unfold on_error at 1. unfold client_Do at 1.
    destruct (wServer _ _ _ req) as [e|r2]; [reflexivity|].
    destruct (400 <=? StatusCode r2)%Z; [|reflexivity].
    unfold bind, ret, fail. rewrite readAdminError_run. reflexivity.
  - unfold bind, fail. rewrite readAdminError_run. reflexivity.
Qed.

End RetryController.

Section RequestExecutor.
Context {D : Deps}.

Lemma same_net_refl (st : State) : same_net st st.
Proof. repeat split. Qed.

Lemma same_net_trans (st st1 st2 : State) :
  same_net st st1 -> same_net st1 st2 -> same_net st st2.
Proof.
  unfold same_net. intros (H1 & H2 & H3) (H4 & H5 & H6).
  repeat split; congruence.
Qed.

Lemma sends_app (l1 l2 : list Event) : sends (l1 ++ l2) = (sends l1 ++ sends l2)%list.
Proof. apply filter_app. Qed.

Lemma sends_none_in (l : list Event) tr req res :
  sends l = [] -> ~ In (EvSend tr req res) l.
Proof.
  intros Hs Hin.
  assert (Hf : In (EvSend tr req res) (sends l))
    by (apply filter_In; split; [exact Hin|reflexivity]).
  rewrite Hs in Hf. exact Hf.
Qed.

(** *** Steps that do not reach the network *)

Lemma silent_ret {A} (a : A) : silent (ret a).
Proof. intros st. split; [apply same_net_refl|discriminate]. Qed.

Lemma silent_fail {A} (e : Error) : silent (@fail D A e).
Proof. intros st. split; [apply same_net_refl|discriminate]. Qed.

Lemma silent_lift {A} (r : Error + A) : silent (lift r).
Proof. destruct r; [apply silent_fail|apply silent_ret]. Qed.

Lemma silent_on_error {A} (wrap : Error -> Error) (m : M A) :
  silent m -> silent (on_error wrap m).
Proof.
  intros H st. specialize (H st). unfold on_error.
  destruct (m st) as [[a|e| |] st1]; exact H || (split; [apply H|discriminate]).
Qed.

Lemma silent_bind {A B} (m : M A) (k : A -> M B) :
  silent m -> (forall a, silent (k a)) -> silent (bind m k).
Proof.
  intros Hm Hk st. specialize (Hm st). unfold bind.
  destruct (m st) as [[a|e| |] st1]; cbn [fst snd] in *;
    try (split; [apply Hm|discriminate]).
  - specialize (Hk a st1). destruct Hm as [Hm _]. destruct Hk as [Hk Hne].
    split; [eapply same_net_trans; eassumption|exact Hne].
  - destruct Hm as [_ Hm]. contradiction.
Qed.

Lemma silent_generateAdminToken (c : AdminClient) (urlPath : string) :
  silent (generateAdminToken c urlPath).
Proof.
  unfold generateAdminToken.
  apply silent_bind.
  - intros st. unfold randutil_Hex.
    destruct (64 <=? List.length (wEntropy st))%nat;
      (split; [repeat split|discriminate]).
  - intros jwtID. apply silent_bind.
    + intros st. split; [repeat split|discriminate].
    + intros now. destruct (x5cJWK c) as [jwk|].
      * apply silent_bind; [apply silent_lift|intros; apply silent_lift].
      * intros st. split; [apply same_net_refl|discriminate].
Qed.

Lemma silent_http_NewRequest (method : string) (u : URL) (body : option string) :
  silent (http_NewRequest method u body).
Proof.
  unfold http_NewRequest.
  destruct (http_NewRequest_error method u); [apply silent_fail|apply silent_ret].
Qed.

(** *** Decoders *)

Lemma quiet_ret {A} (a : A) : quiet (ret a).
Proof.
  intros st. cbn. repeat split; try discriminate.
  exists []. now rewrite app_nil_r.
Qed.

Lemma quiet_readJSON {A} (wrap : Error -> Error) (decode : string -> Error + A)
    (body : string) :
  quiet (on_error wrap (readJSON decode body)).
Proof.
  intros st.
  unfold on_error, readJSON, bind, Body_Close, lift, fail, ret.
  destruct (decode body); cbn;
    (split; [discriminate|]); (split; [reflexivity|]); (split; [reflexivity|]);
    exists [EvClose body]; split; reflexivity.
Qed.

Lemma quiet_readProtoJSON {A} (wrap : Error -> Error)
    (decode : string -> Error + A) (body : string) :
  quiet (on_error wrap (readProtoJSON decode body)).
Proof. exact (quiet_readJSON wrap decode body). Qed.

Lemma quiet_map {A B} (m : M A) (f : A -> B) :
  quiet m -> quiet (bind m (fun a => ret (f a))).
Proof.
  intros H st. specialize (H st). unfold bind, ret.
  destruct H as (Hne & Htr & Hsrv & Hlog).
  destruct (m st) as [[a|e| |] st1]; cbn [fst snd] in *;
    (split; [first [discriminate | exfalso; apply Hne; reflexivity]|]);
    (split; [assumption|split; assumption]).
Qed.

(** *** The block and its trace *)

Lemma after_send_log (req : Request) (st : State) :
  wLog (after_send req st) =
  (wLog st ++ [EvSend (wTransport st) req (round_trip req st)])%list.
Proof. reflexivity. Qed.

Lemma two_attempts_trace {A} (c : AdminClient) (req : Request)
    (wrap : Error -> Error) (decode : Response -> M A) (st : State) :
  (forall resp, quiet (decode resp)) ->
  exists l,
    wLog (snd (two_attempts c req wrap decode st)) = (wLog st ++ l)%list /\
    block_trace c req wrap st l
      (fst (two_attempts c req wrap decode st))
      (wTransport (snd (two_attempts c req wrap decode st))).
Proof.
  intros Hq. unfold two_attempts.
  pose proof (after_send_log req st) as L1.
  destruct (round_trip req st) as [e|r1] eqn:R1.
  { eexists. split; [exact L1|]. cbn. now constructor. }
  destruct (400 <=? StatusCode r1)%Z eqn:H400.
  2:{ apply Z.leb_gt in H400.
      destruct (Hq r1 (after_send req st)) as (Hne & Htr & _ & ld & Hlog & Hs).
      exists (EvSend (wTransport st) req (inr r1) :: ld). split.
      - rewrite Hlog, L1, <- app_assoc. reflexivity.
      - rewrite Htr. cbn [after_send log_event wTransport].
        now constructor. }
  apply Z.leb_le in H400.
  unfold retry_signal, retry_state, recognises.
  destruct (retryFunc c) as [f|] eqn:Hf.
  2:{ cbn [andb]. exists (EvSend (wTransport st) req (inr r1) :: [] ++ [EvClose (Body r1)]).
      split.
      - cbn [snd log_event wLog]. rewrite L1, <- app_assoc. reflexivity.
      - cbn. apply bt_refused with (lr := []); auto.
        left. unfold recognises. now rewrite Hf. }
  destruct (f (StatusCode r1)) eqn:Hrec.
  2:{ cbn [andb].
      exists (EvSend (wTransport st) req (inr r1)
              :: [EvRetryFunc (StatusCode r1)] ++ [EvClose (Body r1)]).
      split.
      - cbn [snd log_event wLog]. rewrite L1, <- !app_assoc. reflexivity.
      - cbn. apply bt_refused with (lr := [EvRetryFunc (StatusCode r1)]); auto.
        left. unfold recognises. now rewrite Hf. }
  destruct (rebuild c) as [tr2|] eqn:Hreb.
  2:{ cbn [andb].
      exists (EvSend (wTransport st) req (inr r1)
              :: [EvRetryFunc (StatusCode r1)] ++ [EvClose (Body r1)]).
      split.
      - cbn [snd log_event wLog]. rewrite L1, <- !app_assoc. reflexivity.
      - cbn. apply bt_refused with (lr := [EvRetryFunc (StatusCode r1)]); auto. }
  cbn [andb].
  assert (Hrec' : recognises c (StatusCode r1) = true)
    by (unfold recognises; now rewrite Hf).
  set (st2 := set_transport tr2 _).
  assert (L2 : wLog st2 =
               (wLog st ++ [EvSend (wTransport st) req (inr r1);
                            EvRetryFunc (StatusCode r1);
                            EvClose (Body r1); EvSetTransport tr2])%list).
  { subst st2. cbn [set_transport log_event wLog]. rewrite L1, <- !app_assoc.
    reflexivity. }
  assert (T2 : wTransport st2 = tr2) by reflexivity.
  pose proof (after_send_log req st2) as L3. rewrite L2, T2, <- app_assoc in L3.
  destruct (round_trip req st2) as [e|r2] eqn:R2.
  { eexists. split; [exact L3|]. cbn. now apply bt_replay_failed. }
  destruct (400 <=? StatusCode r2)%Z eqn:H400'.
  { apply Z.leb_le in H400'. eexists. split.
    - cbn [snd log_event wLog]. rewrite L3, <- app_assoc. reflexivity.
    - cbn. now apply bt_replay_refused. }
  apply Z.leb_gt in H400'.
  destruct (Hq r2 (after_send req st2)) as (Hne & Htr & _ & ld & Hlog & Hs).
  eexists. split.
  - rewrite Hlog, L3, <- app_assoc. reflexivity.
  - rewrite Htr. cbn [after_send log_event wTransport]. rewrite T2.
    now apply bt_replay_answered.
Qed.


(** *** Operations run their prelude, then the block *)

Lemma Runs_bind {A B} (P : Request -> Prop) (c : AdminClient) (st0 : State)
    (m : M A) (k : A -> M B) (st : State) :
  same_net st0 st ->
  silent m ->
  (forall a st1, same_net st0 st1 -> Runs P c st0 (k a st1)) ->
  Runs P c st0 (bind m k st).
Proof.
  intros Hn Hm Hk. destruct (Hm st) as [Hs Hne]. unfold bind.
  destruct (m st) as [[a|e| |] st1]; cbn [fst snd] in *.
  - apply Hk. eapply same_net_trans; eassumption.
  - apply runs_early; [eapply same_net_trans; eassumption| |]; discriminate.
  - apply runs_early; [eapply same_net_trans; eassumption| |]; discriminate.
  - exfalso. apply Hne. reflexivity.
Qed.

Lemma Runs_NewRequest {B} (P : Request -> Prop) (c : AdminClient) (st0 : State)
    (wrap : Error -> Error) (method : string) (u : URL) (body : option string)
    (k : Request -> M B) (st : State) :
  same_net st0 st ->
  Runs P c st0
       (k {| Method := method; ReqURL := u; Header := []; ReqBody := body |} st) ->
  Runs P c st0 (bind (on_error wrap (http_NewRequest method u body)) k st).
Proof.
  intros Hn Hk. unfold http_NewRequest, bind, on_error.
  destruct (http_NewRequest_error method u); cbn.
  - apply runs_early; [assumption| |]; discriminate.
  - exact Hk.
Qed.

Lemma Runs_block {A B} (P : Request -> Prop) (c : AdminClient) (st0 : State)
    (req : Request) (format : string) (decode : Response -> M A) (f : A -> B)
    (fuel : nat) (st : State) :
  2 <= fuel ->
  same_net st0 st ->
  P req ->
  (forall resp, quiet (decode resp)) ->
  Runs P c st0
       (bind (retry_block c (client_Do req) (wrapf format [ReqURL req])
                          decode fuel false)
             (fun a => ret (f a)) st).
Proof.
  intros Hfuel Hn HP Hq.
  rewrite retry_block_bind, retry_block_unroll by assumption.
  apply runs_block; auto.
  intros resp. apply quiet_map. apply Hq.
Qed.

Lemma runs_block_plain {A} (P : Request -> Prop) (c : AdminClient) (st0 : State)
    (req : Request) (format : string) (decode : Response -> M A)
    (fuel : nat) (st : State) :
  2 <= fuel ->
  same_net st0 st ->
  P req ->
  (forall resp, quiet (decode resp)) ->
  Runs P c st0
       (retry_block c (client_Do req) (wrapf format [ReqURL req])
                    decode fuel false st).
Proof.
  intros Hfuel Hn HP Hq.
  rewrite retry_block_unroll by assumption.
  now apply runs_block.
Qed.

End RequestExecutor.

Ltac silent_solve :=
  repeat first
    [ apply silent_on_error | apply silent_lift
    | apply silent_generateAdminToken | apply silent_http_NewRequest
    | apply silent_ret | apply silent_fail
    | match goal with |- silent (if ?b then _ else _) => destruct b end ].

Ltac quiet_solve :=
  intros;
  first [ apply quiet_readJSON | apply quiet_readProtoJSON | apply quiet_ret ].

(** Walk an operation down to its [retry:] block; [tac] proves the
    property of the request. *)
Ltac run_prelude tac :=
  cbv zeta;
  repeat first
    [ rewrite bind_assoc
    | apply Runs_NewRequest; [assumption|]
    | apply Runs_block; [assumption|assumption|tac|quiet_solve]
    | apply Runs_bind;
      [assumption|solve [silent_solve]|intros ? ? ?; cbv beta zeta] ].

Section Operations_run.
Context {D : Deps}.

Lemma exec_runs (c : AdminClient) (call : Call) (fuel : nat) (st : State) :
  2 <= fuel ->
  Runs (fun _ => True) c st (exec c call fuel st).
Proof.
  intros Hfuel. pose proof (same_net_refl st) as Hn.
  destruct call; unfold exec;
    unfold GetAdmin, GetAdminsPaginate, CreateAdmin, RemoveAdmin, UpdateAdmin,
           GetProvisioner, GetProvisionersPaginate, RemoveProvisioner,
           CreateProvisioner, UpdateProvisioner, client_Get;
    run_prelude ltac:(exact I).
Qed.

Lemma block_trace_same_net {A} (c : AdminClient) (req : Request)
    (wrap : Error -> Error) (st st1 : State) l (r : outcome A) tr :
  same_net st st1 ->
  block_trace c req wrap st1 l r tr ->
  block_trace c req wrap st l r tr.
Proof.
  intros (Hl & Ht & Hs) H.
  assert (R : round_trip req st1 = round_trip req st)
    by (unfold round_trip; now rewrite Hl, Ht, Hs).
  destruct H; rewrite ?Ht; rewrite R in *.
  - now apply bt_send_failed.
  - now apply bt_answered.
  - now apply bt_refused.
  - now apply bt_replay_failed.
  - now apply bt_replay_refused.
  - now apply bt_replay_answered.
Qed.

Lemma Runs_trace {A} (P : Request -> Prop) (c : AdminClient) (st : State)
    (x : outcome A * State) :
  Runs P c st x ->
  exists l,
    wLog (snd x) = (wLog st ++ l)%list /\
    call_trace P c st l (fst x) (wTransport (snd x)).
Proof.
  intros H. destruct H as [r st1 Hn Hr Hf|st1 req format decode Hn HP Hq].
  - exists []. destruct Hn as (Hl & Ht & _). cbn [fst snd].
    rewrite Hl, Ht, app_nil_r. split; [reflexivity|].
    now apply ct_early.
  - destruct (two_attempts_trace c req (wrapf format [ReqURL req]) decode st1 Hq)
      as (l & Hlog & Htrace).
    exists l. split.
    + rewrite Hlog. destruct Hn as (Hl & _). now rewrite Hl.
    + eapply ct_block; [exact HP|].
      eapply block_trace_same_net; eassumption.
Qed.

Lemma exec_trace (c : AdminClient) (call : Call) (fuel : nat) (st : State) :
  2 <= fuel ->
  exists l,
    wLog (snd (exec c call fuel st)) = (wLog st ++ l)%list /\
    call_trace (fun _ => True) c st l
      (fst (exec c call fuel st)) (wTransport (snd (exec c call fuel st))).
Proof.
  intros Hfuel. apply Runs_trace. now apply exec_runs.
Qed.

Lemma block_trace_sent {A} (c : AdminClient) (req : Request)
    (wrap : Error -> Error) (st : State) l (r : outcome A) tr :
  block_trace c req wrap st l r tr ->
  forall tr' req' res', In (EvSend tr' req' res') l -> req' = req.
Proof.
  intros H tr' req' res' Hin.
  destruct H;
    repeat match goal with
      | H : In _ (_ ++ _) |- _ => apply in_app_or in H; destruct H as [H|H]
      | H : In _ (_ :: _) |- _ => destruct H as [H|H]
      | H : In _ [] |- _ => destruct H
      | H : In (EvSend _ _ _) ?ld, Hs : sends ?ld = [] |- _ =>
          exfalso; exact (sends_none_in ld _ _ _ Hs H)
      end;
    congruence.
Qed.

(** C1, as the code has it.  For each of the ten operations and every
    server, a logical call makes at most two round trips.  When the first
    answer has a status of 400 or more, the predicate recognises it and the
    transport is rebuilt ([rebuild c = Some tr2]), exactly one replay
    follows, over the new transport, and a second status of 400 or more is
    returned as the decoded error.  When the predicate does not recognise
    the status, none is configured, or the rebuild fails, there is no
    replay and the first answer's decoded error is returned. *)
Theorem exec_at_most_one_retry (c : AdminClient) (call : Call) (fuel : nat)
    (st : State) :
  2 <= fuel ->
  exists l,
    wLog (snd (exec c call fuel st)) = (wLog st ++ l)%list /\
    fst (exec c call fuel st) <> OutOfFuel /\
    List.length (sends l) <= 2 /\
    forall tr1 req1 r1 rest,
      sends l = EvSend tr1 req1 (inr r1) :: rest ->
      (400 <= StatusCode r1)%Z ->
      (recognises c (StatusCode r1) = true ->
       forall tr2, rebuild c = Some tr2 ->
       exists res2,
         rest = [EvSend tr2 req1 res2] /\
         forall r2, res2 = inr r2 -> (400 <= StatusCode r2)%Z ->
                    fst (exec c call fuel st) = Fail (admin_error (Body r2))) /\
      (recognises c (StatusCode r1) = false \/ rebuild c = None ->
       rest = [] /\
       fst (exec c call fuel st) = Fail (admin_error (Body r1))).
Proof.
  intros Hfuel.
  destruct (exec_trace c call fuel st Hfuel) as (l & Hlog & Htrace).
  exists l. split; [exact Hlog|].
  remember (fst (exec c call fuel st)) as r eqn:Er.
  remember (wTransport (snd (exec c call fuel st))) as trf eqn:Et.
  clear Er Et Hlog.
  destruct Htrace as [r Hr Hf|req format l r trf _ Hb].
  { cbn. repeat split; try assumption; try lia; discriminate. }
  destruct Hb; unfold sends in *; cbn [filter is_send app] in *;
    rewrite ?filter_app in *; cbn [filter is_send app] in *;
    repeat match goal with
      | Hs : filter is_send ?ld = [] |- _ => rewrite !Hs in *; clear Hs
      end;
    cbn [app List.length];
    (split; [first [assumption|discriminate]|]);
    (split; [lia|]);
    intros tr1 req1 r1' rest Hs H400;
    inversion Hs; subst; clear Hs;
    (split; [intros Hrec tr2' Hreb|intros Hno]);
    try lia;
    try (destruct Hno; congruence);
    try match goal with
      | H : _ \/ _ |- exists _, _ => destruct H; congruence
      end;
    try (split; reflexivity);
    (assert (tr2' = tr2) by congruence); subst tr2';
    (eexists; split; [reflexivity|]);
    intros r2' Hr2 Hge; inversion Hr2; subst; clear Hr2;
    first [reflexivity|lia].
Qed.

(** C2, as the code has it.  Every round trip of one logical call carries
    the same request: the replay after a retry signal sends the request
    built before the first attempt, with the Authorization token minted
    then (same JWT id, same validity window). *)
Theorem replay_sends_same_request (c : AdminClient) (call : Call) (fuel : nat)
    (st : State) :
  2 <= fuel ->
  exists l,
    wLog (snd (exec c call fuel st)) = (wLog st ++ l)%list /\
    forall tr1 req1 res1 tr2 req2 res2,
      In (EvSend tr1 req1 res1) l ->
      In (EvSend tr2 req2 res2) l ->
      req2 = req1 /\ Header req2 = Header req1.
Proof.
  intros Hfuel.
  destruct (exec_trace c call fuel st Hfuel) as (l & Hlog & Htrace).
  exists l. split; [exact Hlog|].
  intros tr1 req1 res1 tr2 req2 res2 H1 H2.
  destruct Htrace as [r Hr Hf|req format l r trf _ Hb]; [destruct H1|].
  rewrite (block_trace_sent c req _ st l r trf Hb _ _ _ H1).
  rewrite (block_trace_sent c req _ st l r trf Hb _ _ _ H2).
  split; reflexivity.
Qed.

(** C9.  When the first send of a call fails at the transport level, the
    call's events are that one round trip: the retry predicate is not
    consulted, the transport stays, nothing is replayed, and the caller gets
    the error wrapped by [errors.Wrapf].  More generally a failed send is
    the last event of its call, whatever the retry predicate. *)
Theorem transport_failure_surfaced (c : AdminClient) (call : Call) (fuel : nat)
    (st : State) :
  2 <= fuel ->
  exists l,
    wLog (snd (exec c call fuel st)) = (wLog st ++ l)%list /\
    (forall tr req e rest,
        sends l = EvSend tr req (inl e) :: rest ->
        l = [EvSend (wTransport st) req (inl e)] /\
        wTransport (snd (exec c call fuel st)) = wTransport st /\
        exists format,
          fst (exec c call fuel st) = Fail (errors_Wrapf e format [ReqURL req])) /\
    (forall tr req e,
        In (EvSend tr req (inl e)) l ->
        exists l1 format,
          l = (l1 ++ [EvSend tr req (inl e)])%list /\
          fst (exec c call fuel st) = Fail (errors_Wrapf e format [ReqURL req])).
Proof.
  intros Hfuel.
  destruct (exec_trace c call fuel st Hfuel) as (l & Hlog & Htrace).
  exists l. split; [exact Hlog|].
  remember (fst (exec c call fuel st)) as r eqn:Er.
  remember (wTransport (snd (exec c call fuel st))) as trf eqn:Et.
  clear Er Et Hlog.
  destruct Htrace as [r Hr Hf|req format l r trf _ Hb].
  { split; [intros tr req e rest Hs; discriminate Hs|intros tr req e []]. }
  split.
  - intros tr req' e rest Hs.
    destruct Hb; unfold sends in *; cbn [filter is_send app] in *;
      rewrite ?filter_app in *; cbn [filter is_send app] in *;
      try discriminate Hs.
    injection Hs as <- <- <- <-.
    split; [reflexivity|]. split; [reflexivity|]. now exists format.
  - intros tr req' e Hin.
    pose proof (block_trace_sent c req _ st l r trf Hb _ _ _ Hin) as ->.
    destruct Hb;
      repeat match goal with
        | H : In _ (_ ++ _) |- _ => apply in_app_or in H; destruct H as [H|H]
        | H : In _ (_ :: _) |- _ => destruct H as [H|H]
        | H : In _ [] |- _ => destruct H
        | H : In (EvSend _ _ _) ?ld, Hs : sends ?ld = [] |- _ =>
            exfalso; exact (sends_none_in ld _ _ _ Hs H)
        end;
      try discriminate.
    + injection Hin as <- <-. exists [], format. split; reflexivity.
    + injection Hin as <- <-.
      eexists [_; _; _; _], format. split; reflexivity.
Qed.

End Operations_run.

Ltac run_to_block tac :=
  cbv zeta;
  repeat first
    [ rewrite bind_assoc
    | apply Runs_NewRequest; [assumption|]
    | apply Runs_block; [assumption|assumption|tac|quiet_solve]
    | apply runs_block_plain; [assumption|assumption|tac|quiet_solve]
    | apply Runs_bind;
      [assumption|solve [silent_solve]|intros ? ? ?; cbv beta zeta] ].

Section Selector.
Context {D : Deps}.

Lemma call_trace_all_sent {A} (P : Request -> Prop) (c : AdminClient)
    (st : State) l (r : outcome A) tr :
  call_trace P c st l r tr -> all_sent P l.
Proof.
  intros H tr' req' res' Hin.
  destruct H as [r Hr Hf|req format l r trf HP Hb]; [destruct Hin|].
  now rewrite (block_trace_sent c req _ st l r trf Hb _ _ _ Hin).
Qed.

Lemma Runs_all_sent {A} (P : Request -> Prop) (c : AdminClient) (st : State)
    (x : outcome A * State) :
  Runs P c st x ->
  exists l, wLog (snd x) = (wLog st ++ l)%list /\ all_sent P l.
Proof.
  intros H. destruct (Runs_trace P c st x H) as (l & Hlog & Ht).
  exists l. split; [exact Hlog|]. eapply call_trace_all_sent; eassumption.
Qed.

Lemma length_pos_nonempty (s : string) :
  s <> "" -> (0 <? String.length s)%nat = true.
Proof. destruct s; [congruence|reflexivity]. Qed.

Lemma insert_by_key_In (kv kv' : string * string) (v : Values) :
  In kv (insert_by_key kv' v) <-> kv = kv' \/ In kv v.
Proof.
  induction v as [|x v IH]; cbn [insert_by_key].
  - cbn. intuition congruence.
  - destruct (String.leb (fst kv') (fst x)); cbn [In] in *.
    + intuition congruence.
    + rewrite IH. intuition congruence.
Qed.

Lemma Values_Encode_In (kv : string * string) (v : Values) :
  In kv (Values_Encode v) <-> In kv v.
Proof.
  unfold Values_Encode. induction v as [|x v IH]; cbn [fold_right In].
  - reflexivity.
  - rewrite insert_by_key_In, IH. intuition congruence.
Qed.

(** C8.  [GetProvisioner] and [RemoveProvisioner] with neither id nor name
    in the options fail with the configuration error and leave the state as
    it was: no round trip, no token minted.  With the id set, whether or not
    the name is set too, every request goes to the [provisioners/id] URL
    with the id in its query. *)
Theorem provisioner_selector (c : AdminClient) (opts : list ProvisionerOption)
    (o : provisionerOptions) (fuel : nat) (st : State) :
  provisionerOptions_apply new_provisionerOptions opts = inr o ->
  2 <= fuel ->
  (prov_id o = "" -> prov_name o = "" ->
   GetProvisioner c opts fuel st =
     (Fail (errors_New "must set either name or id in method options"), st) /\
   RemoveProvisioner c opts fuel st =
     (Fail (errors_New "must set either name or id in method options"), st)) /\
  (prov_id o <> "" ->
   In ("id", prov_id o) (provisionerOptions_rawQuery o) /\
   (exists l,
       wLog (snd (GetProvisioner c opts fuel st)) = (wLog st ++ l)%list /\
       all_sent
         (fun req =>
            Method req = "GET" /\
            ReqURL req =
              ResolveReference (endpoint c)
                (url_ref "/admin/provisioners/id" (provisionerOptions_rawQuery o)))
         l) /\
   (exists l,
       wLog (snd (RemoveProvisioner c opts fuel st)) = (wLog st ++ l)%list /\
       all_sent
         (fun req =>
            Method req = "DELETE" /\
            ReqURL req =
              ResolveReference (endpoint c)
                (url_ref (path_Join [adminURLPrefix; "provisioners/id"])
                         (provisionerOptions_rawQuery o)))
         l)).
Proof.
  intros Hopts Hfuel. split.
  - intros Hid Hname.
    unfold GetProvisioner, RemoveProvisioner.
    unfold bind at 1 5. rewrite Hopts. cbn [lift ret].
    rewrite Hid, Hname. split; reflexivity.
  - intros Hid. pose proof (length_pos_nonempty _ Hid) as Hlen.
    pose proof (same_net_refl st) as Hn.
    split; [|split].
    + unfold provisionerOptions_rawQuery. rewrite Hlen.
      apply Values_Encode_In. unfold Values_Set.
      apply in_or_app. right. now left.
    + apply Runs_all_sent with (c := c). unfold GetProvisioner.
      unfold bind at 1. rewrite Hopts. cbn [lift ret].
      rewrite Hlen. unfold bind at 1. cbn [ret].
      run_to_block ltac:(split; reflexivity).
    + apply Runs_all_sent with (c := c). unfold RemoveProvisioner.
      unfold bind at 1. rewrite Hopts. cbn [lift ret].
      rewrite Hlen. unfold bind at 1. cbn [ret].
      run_to_block ltac:(split; reflexivity).
Qed.

End Selector.

Section Aggregator.
Context {D : Deps}.

Lemma all_sent_app (P : Request -> Prop) (l1 l2 : list Event) :
  all_sent P l1 -> all_sent P l2 -> all_sent P (l1 ++ l2).
Proof.
  intros H1 H2 tr req res Hin.
  apply in_app_or in Hin. destruct Hin; [eapply H1|eapply H2]; eassumption.
Qed.

Lemma all_sent_weaken (P Q : Request -> Prop) (l : list Event) :
  (forall req, P req -> Q req) -> all_sent P l -> all_sent Q l.
Proof. intros HPQ H tr req res Hin. eapply HPQ, H, Hin. Qed.

Lemma fetch_admins_runs (c : AdminClient) (fuel : nat) (cur : string)
    (st : State) :
  2 <= fuel ->
  Runs (fun req => ReqURL req = admins_page_url c cur) c st
       (fetch_admins c fuel cur st).
Proof.
  intros Hfuel. pose proof (same_net_refl st) as Hn.
  unfold fetch_admins, GetAdminsPaginate.
  unfold bind at 1. cbn [adminOptions_apply WithAdminCursor WithAdminLimit
                         new_adminOptions lift ret cursor limit].
  run_to_block ltac:(reflexivity).
Qed.

Lemma fetch_provisioners_runs (c : AdminClient) (fuel : nat) (cur : string)
    (st : State) :
  2 <= fuel ->
  Runs (fun req => ReqURL req = provisioners_page_url c cur) c st
       (fetch_provisioners c fuel cur st).
Proof.
  intros Hfuel. pose proof (same_net_refl st) as Hn.
  unfold fetch_provisioners, GetProvisionersPaginate.
  unfold bind at 1.
  cbn [provisionerOptions_apply WithProvisionerCursor WithProvisionerLimit
       new_provisionerOptions lift ret prov_cursor prov_limit prov_id prov_name].
  run_to_block ltac:(reflexivity).
Qed.

Lemma GetAdmins_loop_sent (c : AdminClient) (fuel : nat) :
  2 <= fuel ->
  forall pages cur acc st,
  exists l,
    wLog (snd (GetAdmins_loop c fuel pages cur acc st)) = (wLog st ++ l)%list /\
    all_sent (fun req => exists cur, ReqURL req = admins_page_url c cur) l.
Proof.
  intros Hfuel. induction pages as [|pages IH]; intros cur acc st.
  { exists []. cbn. rewrite app_nil_r. split; [reflexivity|]. intros ? ? ? []. }
  cbn [GetAdmins_loop]. fold (fetch_admins c fuel cur).
  destruct (Runs_all_sent _ c st _ (fetch_admins_runs c fuel cur st Hfuel))
    as (l1 & Hl1 & Hs1).
  assert (Hs1' : all_sent (fun req => exists cur, ReqURL req = admins_page_url c cur) l1)
    by (eapply all_sent_weaken; [|exact Hs1]; intros req Hreq; now exists cur).
  unfold bind.
  destruct (fetch_admins c fuel cur st) as [[resp|e| |] st1]; cbn [fst snd] in *;
    try (exists l1; split; assumption).
  destruct (String.eqb (NextCursor resp) "").
  - exists l1. split; assumption.
  - destruct (IH (NextCursor resp) (acc ++ Admins resp)%list st1) as (l2 & Hl2 & Hs2).
    exists (l1 ++ l2)%list. split.
    + rewrite Hl2, Hl1, app_assoc. reflexivity.
    + now apply all_sent_app.
Qed.

Lemma GetProvisioners_loop_sent (c : AdminClient) (fuel : nat) :
  2 <= fuel ->
  forall pages cur acc st,
  exists l,
    wLog (snd (GetProvisioners_loop c fuel pages cur acc st)) =
    (wLog st ++ l)%list /\
    all_sent (fun req => exists cur, ReqURL req = provisioners_page_url c cur) l.
Proof.
  intros Hfuel. induction pages as [|pages IH]; intros cur acc st.
  { exists []. cbn. rewrite app_nil_r. split; [reflexivity|]. intros ? ? ? []. }
  cbn [GetProvisioners_loop]. fold (fetch_provisioners c fuel cur).
  destruct (Runs_all_sent _ c st _ (fetch_provisioners_runs c fuel cur st Hfuel))
    as (l1 & Hl1 & Hs1).
  assert (Hs1' : all_sent
                   (fun req => exists cur, ReqURL req = provisioners_page_url c cur) l1)
    by (eapply all_sent_weaken; [|exact Hs1]; intros req Hreq; now exists cur).
  unfold bind.
  destruct (fetch_provisioners c fuel cur st) as [[resp|e| |] st1];
    cbn [fst snd] in *; try (exists l1; split; assumption).
  destruct (String.eqb (ProvisionersNextCursor resp) "").
  - exists l1. split; assumption.
  - destruct (IH (ProvisionersNextCursor resp)
                 (acc ++ Provisioners resp)%list st1) as (l2 & Hl2 & Hs2).
    exists (l1 ++ l2)%list. split.
    + rewrite Hl2, Hl1, app_assoc. reflexivity.
    + now apply all_sent_app.
Qed.

(** C10.  [GetAdmins] and [GetProvisioners] do not read their [opts]: the
    result is the same for every [opts], and every request they send is the
    page URL for some cursor with the limit 100. *)
Theorem aggregators_ignore_opts (c : AdminClient) (opts : list AdminOption)
    (fuel : nat) (st : State) :
  2 <= fuel ->
  (forall opts', GetAdmins c opts' fuel st = GetAdmins c opts fuel st) /\
  (forall opts', GetProvisioners c opts' fuel st = GetProvisioners c opts fuel st) /\
  (exists l,
      wLog (snd (GetAdmins c opts fuel st)) = (wLog st ++ l)%list /\
      all_sent
        (fun req =>
           exists cur,
             ReqURL req =
               ResolveReference (endpoint c)
                 (url_ref "/admin/admins"
                    (adminOptions_rawQuery {| cursor := cur; limit := 100 |})))
        l) /\
  (exists l,
      wLog (snd (GetProvisioners c opts fuel st)) = (wLog st ++ l)%list /\
      all_sent
        (fun req =>
           exists cur,
             ReqURL req =
               ResolveReference (endpoint c)
                 (url_ref "/admin/provisioners"
                    (provisionerOptions_rawQuery
                       {| prov_cursor := cur; prov_limit := 100;
                          prov_id := ""; prov_name := "" |})))
        l).
Proof.
  intros Hfuel.
  split; [reflexivity|]. split; [reflexivity|]. split.
  - apply (GetAdmins_loop_sent c fuel Hfuel).
  - apply (GetProvisioners_loop_sent c fuel Hfuel).
Qed.

Lemma eqb_nonempty (s : string) : s <> "" -> String.eqb s "" = false.
Proof. intros H. now apply String.eqb_neq. Qed.

Lemma GetAdmins_loop_pages (c : AdminClient) (fuel : nat) cur st ps cur' st1 :
  page_run (fetch_admins c fuel) (@NextCursor Admin) cur st ps cur' st1 ->
  forall pages acc,
    GetAdmins_loop c fuel (List.length ps + pages) cur acc st =
    GetAdmins_loop c fuel pages cur' (acc ++ flat_map (@Admins Admin) ps) st1.
Proof.
  induction 1 as [cur st|cur st p st1 ps cur' st' Hfetch Hnext Hrun IH];
    intros pages acc.
  - cbn. now rewrite app_nil_r.
  - cbn [List.length plus GetAdmins_loop flat_map].
    fold (fetch_admins c fuel cur). unfold bind at 1. rewrite Hfetch.
    rewrite (eqb_nonempty _ Hnext).
    rewrite IH. now rewrite app_assoc.
Qed.

Lemma GetProvisioners_loop_pages (c : AdminClient) (fuel : nat) cur st ps cur' st1 :
  page_run (fetch_provisioners c fuel) (@ProvisionersNextCursor ProvisionerInterface)
           cur st ps cur' st1 ->
  forall pages acc,
    GetProvisioners_loop c fuel (List.length ps + pages) cur acc st =
    GetProvisioners_loop c fuel pages cur'
      (acc ++ flat_map (@Provisioners ProvisionerInterface) ps) st1.
Proof.
  induction 1 as [cur st|cur st p st1 ps cur' st' Hfetch Hnext Hrun IH];
    intros pages acc.
  - cbn. now rewrite app_nil_r.
  - cbn [List.length plus GetProvisioners_loop flat_map].
    fold (fetch_provisioners c fuel cur). unfold bind at 1. rewrite Hfetch.
    rewrite (eqb_nonempty _ Hnext).
    rewrite IH. now rewrite app_assoc.
Qed.

Lemma split_fuel (n fuel : nat) : n < fuel -> exists k, fuel = n + S k.
Proof. intros H. exists (fuel - n - 1). lia. Qed.

(** C4.  [GetAdmins] and [GetProvisioners] start with the empty cursor,
    hand each page's [NextCursor] unchanged to the next fetch, append the
    items of the pages in the order they came, and stop at the first page
    whose [NextCursor] is empty: after the pages [ps] (each naming a next
    cursor) and a page [last] that names none, the result is the items of
    [ps ++ [last]] and the state is the one the fetch of [last] left. *)
Theorem aggregate_pages (c : AdminClient) (opts : list AdminOption)
    (fuel : nat) (st : State) :
  (forall ps cur st1 last st2,
      page_run (fetch_admins c fuel) (@NextCursor Admin) "" st ps cur st1 ->
      fetch_admins c fuel cur st1 = (Ret last, st2) ->
      NextCursor last = "" ->
      List.length ps < fuel ->
      GetAdmins c opts fuel st =
      (Ret (flat_map (@Admins Admin) (ps ++ [last])), st2)) /\
  (forall ps cur st1 last st2,
      page_run (fetch_provisioners c fuel)
               (@ProvisionersNextCursor ProvisionerInterface) "" st ps cur st1 ->
      fetch_provisioners c fuel cur st1 = (Ret last, st2) ->
      ProvisionersNextCursor last = "" ->
      List.length ps < fuel ->
      GetProvisioners c opts fuel st =
      (Ret (flat_map (@Provisioners ProvisionerInterface) (ps ++ [last])), st2)).
Proof.
  split; intros ps cur st1 last st2 Hrun Hlast Hend Hlen;
    destruct (split_fuel _ _ Hlen) as (k & Hk).
  - unfold GetAdmins. rewrite Hk at 2.
    rewrite (GetAdmins_loop_pages c fuel _ _ _ _ _ Hrun).
    cbn [GetAdmins_loop app]. fold (fetch_admins c fuel cur).
    unfold bind. rewrite Hlast, Hend. cbn [String.eqb ret].
    rewrite flat_map_app. cbn [flat_map]. now rewrite app_nil_r.
  - unfold GetProvisioners. rewrite Hk at 2.
    rewrite (GetProvisioners_loop_pages c fuel _ _ _ _ _ Hrun).
    cbn [GetProvisioners_loop app]. fold (fetch_provisioners c fuel cur).
    unfold bind. rewrite Hlast, Hend. cbn [String.eqb ret].
    rewrite flat_map_app. cbn [flat_map]. now rewrite app_nil_r.
Qed.

(** C5.  When a page fetch of [GetAdmins] or [GetProvisioners] fails, after
    any number of pages that were fetched and accumulated, the aggregation
    returns that fetch's error as it is, and no list. *)
Theorem aggregate_aborts (c : AdminClient) (opts : list AdminOption)
    (fuel : nat) (st : State) :
  (forall ps cur st1 e st2,
      page_run (fetch_admins c fuel) (@NextCursor Admin) "" st ps cur st1 ->
      fetch_admins c fuel cur st1 = (Fail e, st2) ->
      List.length ps < fuel ->
      GetAdmins c opts fuel st = (Fail e, st2)) /\
  (forall ps cur st1 e st2,
      page_run (fetch_provisioners c fuel)
               (@ProvisionersNextCursor ProvisionerInterface) "" st ps cur st1 ->
      fetch_provisioners c fuel cur st1 = (Fail e, st2) ->
      List.length ps < fuel ->
      GetProvisioners c opts fuel st = (Fail e, st2)).
Proof.
  split; intros ps cur st1 e st2 Hrun Hfail Hlen;
    destruct (split_fuel _ _ Hlen) as (k & Hk).
  - unfold GetAdmins. rewrite Hk at 2.
    rewrite (GetAdmins_loop_pages c fuel _ _ _ _ _ Hrun).
    cbn [GetAdmins_loop]. fold (fetch_admins c fuel cur).
    unfold bind. now rewrite Hfail.
  - unfold GetProvisioners. rewrite Hk at 2.
    rewrite (GetProvisioners_loop_pages c fuel _ _ _ _ _ Hrun).
    cbn [GetProvisioners_loop]. fold (fetch_provisioners c fuel cur).
    unfold bind. now rewrite Hfail.
Qed.

End Aggregator.

(** * The properties on the fake CA *)

Module Scenarios.
Import Fixture.




(** C1, counterexample to the claim as worded.  The predicate recognises
    the 401 of the first answer, but the options no longer resolve, so
    [retryOnError] returns false: the call makes one round trip and no
    replay, and returns the first answer's error. *)
Lemma no_replay_when_rebuild_fails :
  recognises adminClient_stale 401 = true /\
  rebuild adminClient_stale = None /\
  exists tr req,
    wLog (snd (exec adminClient_stale (CallRemoveAdmin "x") 2 fix_revoked_stale)) =
    [EvSend tr req (inr revoked); EvRetryFunc 401; EvClose "certificate revoked"] /\
    fst (exec adminClient_stale (CallRemoveAdmin "x") 2 fix_revoked_stale) =
    Fail (errors_New "certificate revoked").
Proof.
  split; [reflexivity|]. split; [reflexivity|].
  eexists _, _. split; vm_compute; reflexivity.
Qed.


Lemma exec_at_most_one_retry_witness :
  2 <= 2 /\
  exists l,
    wLog (snd (exec adminClient (CallRemoveAdmin "x") 2 fix_revoked)) =
    (wLog fix_revoked ++ l)%list /\
    List.length (sends l) <= 2.
Proof.
  split; [apply le_n|].
  destruct (exec_at_most_one_retry adminClient (CallRemoveAdmin "x") 2
              fix_revoked (le_n 2)) as (l & Hlog & _ & Hlen & _).
  exists l. split; assumption.
Defined.


(** C2, counterexample to the claim as worded.  After the retry signal the
    replay goes out over the rebuilt transport with the request of the
    first attempt: the same Authorization token, with the JWT id and the
    validity window minted before the first send; of the entropy only the
    64 values of that one mint are used. *)
Lemma replay_reuses_token :
  exists req tok,
    sends (wLog (snd (exec adminClient (CallRemoveAdmin "x") 2 fix_revoked))) =
    [@EvSend deps 0 req (inr revoked); @EvSend deps 2 req (inr revoked)] /\
    Header req = [("Authorization", tok)] /\
    jti (tokClaims tok) = hex_of (firstn 64 tape) /\
    wEntropy (snd (exec adminClient (CallRemoveAdmin "x") 2 fix_revoked)) =
    skipn 64 tape.
Proof.
  eexists _, _. split; [|split; [|split]]; vm_compute; reflexivity.
Qed.


Lemma replay_sends_same_request_witness :
  2 <= 2 /\
  exists l,
    wLog (snd (exec adminClient (CallRemoveAdmin "x") 2 fix_revoked)) =
    (wLog fix_revoked ++ l)%list /\
    forall tr1 req1 res1 tr2 req2 res2,
      In (EvSend tr1 req1 res1) l -> In (EvSend tr2 req2 res2) l ->
      req2 = req1 /\ Header req2 = Header req1.
Proof.
  split; [apply le_n|].
  exact (replay_sends_same_request adminClient (CallRemoveAdmin "x") 2
           fix_revoked (le_n 2)).
Defined.


(** C9 on the fake CA: the connection is refused. *)
Lemma transport_failure_surfaced_witness :
  2 <= 2 /\
  exists req e format,
    wLog (snd (exec adminClient (@CallCreateAdmin deps "new-admin") 2 fix_unreachable)) =
    [@EvSend deps 0 req (inl e)] /\
    wTransport (snd (exec adminClient (@CallCreateAdmin deps "new-admin") 2
                       fix_unreachable)) = 0 /\
    fst (exec adminClient (@CallCreateAdmin deps "new-admin") 2 fix_unreachable) =
    Fail (errors_Wrapf e format [ReqURL req]).
Proof.
  split; [apply le_n|].
  destruct (transport_failure_surfaced adminClient (@CallCreateAdmin deps "new-admin") 2
              fix_unreachable (le_n 2)) as (l & Hlog & Hfirst & _).
  assert (Hs : exists req rest,
             sends l = @EvSend deps 0 req
                         (inl (external_error "dial tcp: connection refused"))
                       :: rest).
  { cbn [wLog fix_unreachable state app] in Hlog. rewrite <- Hlog.
    eexists _, _. vm_compute. reflexivity. }
  destruct Hs as (req & rest & Hs).
  destruct (Hfirst _ _ _ _ Hs) as (Hl & Htr & format & Hres).
  exists req, (external_error "dial tcp: connection refused"), format.
  split; [|split].
  - rewrite Hlog, Hl. reflexivity.
  - exact Htr.
  - exact Hres.
Defined.


(** C6, on the fake CA.  [GetAdmin] sends its GET, and the replay, without
    any header, and reads no entropy: no token is minted, although
    [RemoveAdmin] for the same path sends an Authorization token. *)
Lemma GetAdmin_sends_no_token :
  let x := exec adminClient (CallGetAdmin "x") 2 fix_revoked in
  let get :=
    {| Method := "GET";
       ReqURL := {| Scheme := "https"; Host := "ca.example.com";
                    Path := "/admin/admins/x"; RawQuery := [] |};
       Header := []; ReqBody := None |} in
  sends (wLog (snd x)) =
    [@EvSend deps 0 get (inr revoked); @EvSend deps 2 get (inr revoked)] /\
  wEntropy (snd x) = tape /\
  exists del tok,
    sends (wLog (snd (exec adminClient (CallRemoveAdmin "x") 2 fix_revoked))) =
    [@EvSend deps 0 del (inr revoked); @EvSend deps 2 del (inr revoked)] /\
    Path (ReqURL del) = "/admin/admins/x" /\
    Header del = [("Authorization", tok)].
Proof.
  cbv zeta. split; [vm_compute; reflexivity|]. split; [vm_compute; reflexivity|].
  eexists _, _. split; [|split]; vm_compute; reflexivity.
Qed.


(** C7 on the fake CA: the options resolve, the transport is swapped. *)
Lemma retryOnError_contract_witness :
  retryOnError adminClient revoked fix_revoked =
  (Ret true,
   @set_transport deps 2
     (log_event (@EvSetTransport deps 2)
        (log_event (EvClose "certificate revoked")
           (log_event (EvRetryFunc 401) fix_revoked)))) /\
  retryOnError adminClient_stale revoked fix_revoked_stale =
  (Ret false, log_event (EvRetryFunc 401) fix_revoked_stale).
Proof.
  split.
  - exact (proj1 (retryOnError_contract adminClient revoked fix_revoked)
             retry_on_401 ["WithRootFile"; "WithCertificate"] 2
             eq_refl eq_refl eq_refl eq_refl).
  - exact (proj1 (proj2 (retryOnError_contract adminClient_stale revoked
                           fix_revoked_stale))
             retry_on_401 (external_error "open admin.crt: no such file")
             eq_refl eq_refl eq_refl).
Defined.


(** C3 on the fake CA: two mints for the same path. *)
Lemma generateAdminToken_fresh_witness :
  128 <= List.length (wEntropy fix_pages) /\
  (0 < @DefaultValidity deps)%Z /\
  exists tok1 st1 tok2 st2,
    generateAdminToken adminClient "/admin/admins" fix_pages = (Ret tok1, st1) /\
    generateAdminToken adminClient "/admin/admins" st1 = (Ret tok2, st2) /\
    aud (tokClaims tok1) = ["/admin/admins"] /\
    aud (tokClaims tok2) = ["/admin/admins"] /\
    (nbf (tokClaims tok1) < exp (tokClaims tok1))%Z /\
    String.length (jti (tokClaims tok1)) = 64 /\
    tok1 <> tok2.
Proof.
  assert (Hlen : 128 <= List.length (wEntropy fix_pages))
    by (apply Nat.leb_le; reflexivity).
  split; [exact Hlen|]. split; [reflexivity|].
  destruct (generateAdminToken_fresh adminClient key1 "/admin/admins" fix_pages
              eq_refl Hlen
              (fun jwtID now =>
                 Forall_cons _ eq_refl (Forall_cons _ eq_refl
                   (Forall_cons _ eq_refl (Forall_cons _ eq_refl
                     (Forall_cons _ eq_refl (Forall_cons _ eq_refl
                       (Forall_nil _)))))))
              eq_refl eq_refl)
    as (tok1 & st1 & tok2 & st2 & H1 & H2 & M1 & M2 & _ & _ & Hdiff).
  exists tok1, st1, tok2, st2.
  destruct M1 as (A1 & _ & _ & V1 & _ & _ & _ & _ & _ & _ & J1 & _).
  destruct M2 as (A2 & _).
  repeat (split; [assumption|]).
  split.
  - rewrite J1. reflexivity.
  - apply Hdiff. vm_compute. discriminate.
Defined.


(** C4 on the fake CA: pages P1 (cursor "c1"), P2 (cursor "c2"), P3 (no
    cursor); the items come back in order, after three round trips whose
    cursors are none, "c1" and "c2". *)
Lemma aggregate_pages_witness :
  2 < 3 /\
  fst (GetAdmins adminClient [] 3 fix_pages) =
    Ret (Admins page1 ++ Admins page2 ++ Admins page3)%list /\
  fst (GetProvisioners adminClient [] 3 fix_pages) =
    Ret (Provisioners ppage1 ++ Provisioners ppage2 ++ Provisioners ppage3)%list /\
  List.length (sends (wLog (snd (GetAdmins adminClient [] 3 fix_pages)))) = 3 /\
  map (fun ev => match ev with
                 | EvSend _ req _ => RawQuery (ReqURL req)
                 | _ => []
                 end)
      (sends (wLog (snd (GetAdmins adminClient [] 3 fix_pages)))) =
  [ [("limit", "100")];
    [("cursor", "c1"); ("limit", "100")];
    [("cursor", "c2"); ("limit", "100")] ].
Proof.
  split; [apply le_n|].
  set (s1 := snd (fetch_admins adminClient 3 "" fix_pages)).
  set (s2 := snd (fetch_admins adminClient 3 "c1" s1)).
  set (s3 := snd (fetch_admins adminClient 3 "c2" s2)).
  assert (F1 : fetch_admins adminClient 3 "" fix_pages = (Ret page1, s1))
    by (apply injective_projections; [vm_compute; reflexivity|reflexivity]).
  assert (F2 : fetch_admins adminClient 3 "c1" s1 = (Ret page2, s2))
    by (apply injective_projections; [vm_compute; reflexivity|reflexivity]).
  assert (F3 : fetch_admins adminClient 3 "c2" s2 = (Ret page3, s3))
    by (apply injective_projections; [vm_compute; reflexivity|reflexivity]).
  assert (N1 : NextCursor page1 <> "") by discriminate.
  assert (N2 : NextCursor page2 <> "") by discriminate.
  assert (RA : page_run (fetch_admins adminClient 3) (@NextCursor _)
                        "" fix_pages [page1; page2] "c2" s2).
  { eapply page_run_cons; [exact F1|exact N1|].
    eapply page_run_cons; [exact F2|exact N2|]. apply page_run_nil. }
  pose proof (proj1 (aggregate_pages adminClient [] 3 fix_pages)
                [page1; page2] "c2" s2 page3 s3 RA F3 eq_refl (le_n 3)) as HA.
  set (t1 := snd (fetch_provisioners adminClient 3 "" fix_pages)).
  set (t2 := snd (fetch_provisioners adminClient 3 "c1" t1)).
  set (t3 := snd (fetch_provisioners adminClient 3 "c2" t2)).
  assert (G1 : fetch_provisioners adminClient 3 "" fix_pages = (Ret ppage1, t1))
    by (apply injective_projections; [vm_compute; reflexivity|reflexivity]).
  assert (G2 : fetch_provisioners adminClient 3 "c1" t1 = (Ret ppage2, t2))
    by (apply injective_projections; [vm_compute; reflexivity|reflexivity]).
  assert (G3 : fetch_provisioners adminClient 3 "c2" t2 = (Ret ppage3, t3))
    by (apply injective_projections; [vm_compute; reflexivity|reflexivity]).
  assert (Q1 : ProvisionersNextCursor ppage1 <> "") by discriminate.
  assert (Q2 : ProvisionersNextCursor ppage2 <> "") by discriminate.
  assert (RP : page_run (fetch_provisioners adminClient 3)
                        (@ProvisionersNextCursor _)
                        "" fix_pages [ppage1; ppage2] "c2" t2).
  { eapply page_run_cons; [exact G1|exact Q1|].
    eapply page_run_cons; [exact G2|exact Q2|]. apply page_run_nil. }
  pose proof (proj2 (aggregate_pages adminClient [] 3 fix_pages)
                [ppage1; ppage2] "c2" t2 ppage3 t3 RP G3 eq_refl (le_n 3)) as HP.
  split; [rewrite HA; reflexivity|].
  split; [rewrite HP; reflexivity|].
  split; vm_compute; reflexivity.
Defined.


(** C5 on the fake CA: the second page fails with a 500. *)
Lemma aggregate_aborts_witness :
  1 < 3 /\
  fst (GetAdmins adminClient [] 3 fix_broken) = Fail (errors_New "internal error") /\
  fst (GetProvisioners adminClient [] 3 fix_broken) =
    Fail (errors_New "internal error").
Proof.
  split; [repeat constructor|].
  set (s1 := snd (fetch_admins adminClient 3 "" fix_broken)).
  set (s2 := snd (fetch_admins adminClient 3 "c1" s1)).
  assert (F1 : fetch_admins adminClient 3 "" fix_broken = (Ret page1, s1))
    by (apply injective_projections; [vm_compute; reflexivity|reflexivity]).
  assert (F2 : fetch_admins adminClient 3 "c1" s1 =
               (Fail (errors_New "internal error"), s2))
    by (apply injective_projections; [vm_compute; reflexivity|reflexivity]).
  assert (N1 : NextCursor page1 <> "") by discriminate.
  assert (RA : page_run (fetch_admins adminClient 3) (@NextCursor _)
                        "" fix_broken [page1] "c1" s1).
  { eapply page_run_cons; [exact F1|exact N1|]. apply page_run_nil. }
  pose proof (proj1 (aggregate_aborts adminClient [] 3 fix_broken)
                [page1] "c1" s1 (errors_New "internal error") s2
                RA F2 (le_S _ _ (le_n 2))) as HA.
  set (t1 := snd (fetch_provisioners adminClient 3 "" fix_broken)).
  set (t2 := snd (fetch_provisioners adminClient 3 "c1" t1)).
  assert (G1 : fetch_provisioners adminClient 3 "" fix_broken = (Ret ppage1, t1))
    by (apply injective_projections; [vm_compute; reflexivity|reflexivity]).
  assert (G2 : fetch_provisioners adminClient 3 "c1" t1 =
               (Fail (errors_New "internal error"), t2))
    by (apply injective_projections; [vm_compute; reflexivity|reflexivity]).
  assert (Q1 : ProvisionersNextCursor ppage1 <> "") by discriminate.
  assert (RP : page_run (fetch_provisioners adminClient 3)
                        (@ProvisionersNextCursor _)
                        "" fix_broken [ppage1] "c1" t1).
  { eapply page_run_cons; [exact G1|exact Q1|]. apply page_run_nil. }
  pose proof (proj2 (aggregate_aborts adminClient [] 3 fix_broken)
                [ppage1] "c1" t1 (errors_New "internal error") t2
                RP G2 (le_S _ _ (le_n 2))) as HP.
  split; [rewrite HA|rewrite HP]; reflexivity.
Defined.


(** C8 on the fake CA: no selector, and both selectors. *)
Lemma provisioner_selector_witness :
  2 <= 2 /\
  GetProvisioner adminClient [] 2 fix_pages =
    (Fail (errors_New "must set either name or id in method options"), fix_pages) /\
  RemoveProvisioner adminClient [] 2 fix_pages =
    (Fail (errors_New "must set either name or id in method options"), fix_pages) /\
  (exists l,
      wLog (snd (GetProvisioner adminClient [with_id_and_name] 2 fix_pages)) =
      (wLog fix_pages ++ l)%list /\
      all_sent
        (fun req =>
           Method req = "GET" /\
           ReqURL req = {| Scheme := "https"; Host := "ca.example.com";
                           Path := "/admin/provisioners/id";
                           RawQuery := [("id", "p-1")] |}) l) /\
  (exists l,
      wLog (snd (RemoveProvisioner adminClient [with_id_and_name] 2 fix_pages)) =
      (wLog fix_pages ++ l)%list /\
      all_sent
        (fun req =>
           Method req = "DELETE" /\
           ReqURL req = {| Scheme := "https"; Host := "ca.example.com";
                           Path := "/admin/provisioners/id";
                           RawQuery := [("id", "p-1")] |}) l).
Proof.
  split; [apply le_n|].
  destruct (provisioner_selector adminClient [] new_provisionerOptions 2
              fix_pages eq_refl (le_n 2)) as [Hnone _].
  destruct (Hnone eq_refl eq_refl) as [HG HR].
  split; [exact HG|]. split; [exact HR|].
  assert (Hid : "p-1" <> "") by discriminate.
  destruct (provisioner_selector adminClient [with_id_and_name]
              {| prov_cursor := ""; prov_limit := 0;
                 prov_id := "p-1"; prov_name := "acme" |} 2
              fix_pages eq_refl (le_n 2)) as [_ Hboth].
  destruct (Hboth Hid) as (_ & HG' & HR').
  split; [exact HG'|exact HR'].
Defined.


(** C10 on the fake CA: a cursor and a limit given by the caller change
    nothing. *)
Lemma aggregators_ignore_opts_witness :
  2 <= 3 /\
  GetAdmins adminClient [WithAdminCursor "c2"; WithAdminLimit 1] 3 fix_pages =
  GetAdmins adminClient [] 3 fix_pages /\
  GetProvisioners adminClient [WithAdminCursor "c2"; WithAdminLimit 1] 3 fix_pages =
  GetProvisioners adminClient [] 3 fix_pages.
Proof.
  assert (H : 2 <= 3) by (repeat constructor).
  split; [exact H|].
  destruct (aggregators_ignore_opts adminClient [] 3 fix_pages H)
    as (HA & HP & _).
  split; [apply HA|apply HP].
Defined.

End Scenarios.

(** * Further properties of adminClient.go *)

Section MinterEdges.
Context {D : Deps}.

Lemma set_options_inv (os : list token_Options) :
  forall cl cl', set_options cl os = inr cl' -> cl' = fold_left set_option os cl.
Proof.
  induction os as [|o os IH]; intros cl cl' H; cbn in *.
  - congruence.
  - destruct (token_Options_error o); [discriminate|]. now apply IH.
Qed.

Lemma mint_inv (c : AdminClient) (urlPath : string)
    (st st' : State) (tok : Token) :
  generateAdminToken c urlPath st = (Ret tok, st') ->
  exists jwk,
    x5cJWK c = Some jwk /\
    64 <= List.length (wEntropy st) /\
    tok = {| tokClaims :=
               mkClaims (hex_of (firstn 64 (wEntropy st)))
                        (KeyID jwk) (x5cIssuer c) (x5cSubject c) [urlPath]
                        (wClock st (wClockReads st))
                        (wClock st (wClockReads st) + DefaultValidity)%Z
                        (x5cCertStrs c);
             tokAlgorithm := Algorithm jwk;
             tokKey := Key jwk |} /\
    st' = tick_clock (set_entropy (skipn 64 (wEntropy st)) st).
Proof.
  unfold generateAdminToken, bind, randutil_Hex, time_Now.
  destruct (64 <=? List.length (wEntropy st))%nat eqn:Hlen; [|discriminate].
  apply Nat.leb_le in Hlen.
  destruct (x5cJWK c) as [jwk|]; [|discriminate].
  unfold provision_New.
  destruct (set_options _ _) as [e|cl] eqn:Hopts; [discriminate|].
  apply set_options_inv in Hopts. cbn in Hopts. subst cl.
  unfold lift, ret, fail, SignedString.
  destruct (SignedString_error (Algorithm jwk) (Key jwk)); [discriminate|].
  intros H. injection H as <- <-.
  exists jwk. repeat split. exact Hlen.
Qed.

Lemma mint_effects (c : AdminClient) (urlPath : string)
    (st : State) :
  wLog (snd (generateAdminToken c urlPath st)) = wLog st /\
  wTransport (snd (generateAdminToken c urlPath st)) = wTransport st /\
  wServer (snd (generateAdminToken c urlPath st)) = wServer st /\
  wClock (snd (generateAdminToken c urlPath st)) = wClock st /\
  fst (generateAdminToken c urlPath st) <> OutOfFuel /\
  (snd (generateAdminToken c urlPath st) = st \/
   64 <= List.length (wEntropy st) /\
   wEntropy (snd (generateAdminToken c urlPath st)) = skipn 64 (wEntropy st) /\
   wClockReads (snd (generateAdminToken c urlPath st)) = S (wClockReads st)).
Proof.
  assert (Hshape : forall (r : outcome Token) (s : State),
             wLog s = wLog st -> wTransport s = wTransport st ->
             wServer s = wServer st -> wClock s = wClock st ->
             r <> OutOfFuel ->
             (s = st \/
              64 <= List.length (wEntropy st) /\
              wEntropy s = skipn 64 (wEntropy st) /\
              wClockReads s = S (wClockReads st)) ->
             wLog (snd (r, s)) = wLog st /\
             wTransport (snd (r, s)) = wTransport st /\
             wServer (snd (r, s)) = wServer st /\
             wClock (snd (r, s)) = wClock st /\
             fst (r, s) <> OutOfFuel /\
             (snd (r, s) = st \/
              64 <= List.length (wEntropy st) /\
              wEntropy (snd (r, s)) = skipn 64 (wEntropy st) /\
              wClockReads (snd (r, s)) = S (wClockReads st)))
    by (cbn; intuition).
  unfold generateAdminToken, bind, randutil_Hex, time_Now.
  destruct (64 <=? List.length (wEntropy st))%nat eqn:Hlen.
  2:{ apply Hshape; try reflexivity; [discriminate|now left]. }
  apply Nat.leb_le in Hlen.
  assert (Hright : forall s,
             s = tick_clock (set_entropy (skipn 64 (wEntropy st)) st) ->
             s = st \/
             64 <= List.length (wEntropy st) /\
             wEntropy s = skipn 64 (wEntropy st) /\
             wClockReads s = S (wClockReads st))
    by (intros s ->; right; repeat split; exact Hlen).
  destruct (x5cJWK c) as [jwk|].
  2:{ apply Hshape; try reflexivity; [discriminate|now apply Hright]. }
  unfold lift. destruct (provision_New _ _) as [e|cl].
  { apply Hshape; try reflexivity; [discriminate|now apply Hright]. }
  unfold ret, SignedString.
  destruct (SignedString_error (Algorithm jwk) (Key jwk));
    (apply Hshape; try reflexivity; [discriminate|now apply Hright]).
Qed.

Lemma mint_dry (c : AdminClient) (urlPath : string) (st : State) :
  List.length (wEntropy st) < 64 ->
  generateAdminToken c urlPath st = (Fail (external_error "crypto/rand"), st).
Proof.
  intros Hlen. unfold generateAdminToken, bind, randutil_Hex.
  apply Nat.leb_gt in Hlen. now rewrite Hlen.
Qed.

Lemma mint_nil_key (c : AdminClient) (urlPath : string)
    (st : State) :
  x5cJWK c = None ->
  64 <= List.length (wEntropy st) ->
  generateAdminToken c urlPath st =
  (Panic, tick_clock (set_entropy (skipn 64 (wEntropy st)) st)).
Proof.
  intros Hkey Hlen. unfold generateAdminToken, bind, randutil_Hex, time_Now.
  apply Nat.leb_le in Hlen. rewrite Hlen, Hkey. reflexivity.
Qed.

(** Whenever [generateAdminToken] returns a token, the client has a key,
    the token is the one built from the 64 values at the head of the
    entropy tape, the clock reading and the client's credential material,
    with the given path as its only audience, and the mint consumed those 64
    values and one clock reading. *)
Theorem generateAdminToken_sound (c : AdminClient) (urlPath : string)
    (st st' : State) (tok : Token) :
  generateAdminToken c urlPath st = (Ret tok, st') ->
  exists jwk,
    x5cJWK c = Some jwk /\
    64 <= List.length (wEntropy st) /\
    tok = {| tokClaims :=
               mkClaims (hex_of (firstn 64 (wEntropy st)))
                        (KeyID jwk) (x5cIssuer c) (x5cSubject c) [urlPath]
                        (wClock st (wClockReads st))
                        (wClock st (wClockReads st) + DefaultValidity)%Z
                        (x5cCertStrs c);
             tokAlgorithm := Algorithm jwk;
             tokKey := Key jwk |} /\
    st' = tick_clock (set_entropy (skipn 64 (wEntropy st)) st).
Proof.
  unfold generateAdminToken, bind, randutil_Hex, time_Now.
  destruct (64 <=? List.length (wEntropy st))%nat eqn:Hlen; [|discriminate].
  apply Nat.leb_le in Hlen.
  destruct (x5cJWK c) as [jwk|]; [|discriminate].
  unfold provision_New.
  destruct (set_options _ _) as [e|cl] eqn:Hopts; [discriminate|].
  apply set_options_inv in Hopts. cbn in Hopts. subst cl.
  unfold lift, ret, fail, SignedString.
  destruct (SignedString_error (Algorithm jwk) (Key jwk)); [discriminate|].
  intros H. injection H as <- <-.
  exists jwk. repeat split. exact Hlen.
Qed.

(** [generateAdminToken] never reaches the network: log, transport and
    server stay as they are.  It either leaves entropy and clock untouched
    or consumes exactly 64 values of entropy and one clock reading. *)
Theorem generateAdminToken_effects (c : AdminClient) (urlPath : string)
    (st : State) :
  wLog (snd (generateAdminToken c urlPath st)) = wLog st /\
  wTransport (snd (generateAdminToken c urlPath st)) = wTransport st /\
  wServer (snd (generateAdminToken c urlPath st)) = wServer st /\
  wClock (snd (generateAdminToken c urlPath st)) = wClock st /\
  fst (generateAdminToken c urlPath st) <> OutOfFuel /\
  (snd (generateAdminToken c urlPath st) = st \/
   64 <= List.length (wEntropy st) /\
   wEntropy (snd (generateAdminToken c urlPath st)) = skipn 64 (wEntropy st) /\
   wClockReads (snd (generateAdminToken c urlPath st)) = S (wClockReads st)).
Proof.
  assert (Hshape : forall (r : outcome Token) (s : State),
             wLog s = wLog st -> wTransport s = wTransport st ->
             wServer s = wServer st -> wClock s = wClock st ->
             r <> OutOfFuel ->
             (s = st \/
              64 <= List.length (wEntropy st) /\
              wEntropy s = skipn 64 (wEntropy st) /\
              wClockReads s = S (wClockReads st)) ->
             wLog (snd (r, s)) = wLog st /\
             wTransport (snd (r, s)) = wTransport st /\
             wServer (snd (r, s)) = wServer st /\
             wClock (snd (r, s)) = wClock st /\
             fst (r, s) <> OutOfFuel /\
             (snd (r, s) = st \/
              64 <= List.length (wEntropy st) /\
              wEntropy (snd (r, s)) = skipn 64 (wEntropy st) /\
              wClockReads (snd (r, s)) = S (wClockReads st)))
    by (cbn; intuition).
  unfold generateAdminToken, bind, randutil_Hex, time_Now.
  destruct (64 <=? List.length (wEntropy st))%nat eqn:Hlen.
  2:{ apply Hshape; try reflexivity; [discriminate|now left]. }
  apply Nat.leb_le in Hlen.
  assert (Hright : forall s,
             s = tick_clock (set_entropy (skipn 64 (wEntropy st)) st) ->
             s = st \/
             64 <= List.length (wEntropy st) /\
             wEntropy s = skipn 64 (wEntropy st) /\
             wClockReads s = S (wClockReads st))
    by (intros s ->; right; repeat split; exact Hlen).
  destruct (x5cJWK c) as [jwk|].
  2:{ apply Hshape; try reflexivity; [discriminate|now apply Hright]. }
  unfold lift. destruct (provision_New _ _) as [e|cl].
  { apply Hshape; try reflexivity; [discriminate|now apply Hright]. }
  unfold ret, SignedString.
  destruct (SignedString_error (Algorithm jwk) (Key jwk));
    (apply Hshape; try reflexivity; [discriminate|now apply Hright]).
Qed.

End MinterEdges.

Section OptionEdges.
Context {D : Deps}.

Lemma apply_app (o : adminOptions) (l1 l2 : list AdminOption) :
  adminOptions_apply o (l1 ++ l2) =
  match adminOptions_apply o l1 with
  | inl err => inl err
  | inr o1 => adminOptions_apply o1 l2
  end.
Proof.
  revert o. induction l1 as [|fn l1 IH]; intros o; cbn; [reflexivity|].
  destruct (fn o) as [err|o']; [reflexivity|apply IH].
Qed.

(** [adminOptions.apply] runs the options from left to right on the value
    the previous ones left, and stops at the first that fails: the options
    after it are not run. *)
Theorem adminOptions_apply_app (o : adminOptions) (l1 l2 : list AdminOption) :
  adminOptions_apply o (l1 ++ l2) =
  match adminOptions_apply o l1 with
  | inl err => inl err
  | inr o1 => adminOptions_apply o1 l2
  end.
Proof.
  revert o. induction l1 as [|fn l1 IH]; intros o; cbn; [reflexivity|].
  destruct (fn o) as [err|o']; [reflexivity|apply IH].
Qed.

(** [WithAdminCursor] and [WithAdminLimit] never fail, each sets its own
    field and leaves the other, and the last one given wins: after options
    that succeed, a cursor and a limit appended in either order are the
    cursor and limit of the result, and a second cursor overrides the
    first. *)
Theorem admin_options_last_wins (o o1 : adminOptions) (opts : list AdminOption)
    (cur cur' : string) (lim : Z) :
  adminOptions_apply o opts = inr o1 ->
  adminOptions_apply o (opts ++ [WithAdminCursor cur; WithAdminLimit lim]) =
    inr {| cursor := cur; limit := lim |} /\
  adminOptions_apply o (opts ++ [WithAdminLimit lim; WithAdminCursor cur]) =
    inr {| cursor := cur; limit := lim |} /\
  adminOptions_apply o (opts ++ [WithAdminCursor cur]) =
    inr {| cursor := cur; limit := limit o1 |} /\
  adminOptions_apply o (opts ++ [WithAdminLimit lim]) =
    inr {| cursor := cursor o1; limit := lim |} /\
  adminOptions_apply o (opts ++ [WithAdminCursor cur; WithAdminCursor cur']) =
    inr {| cursor := cur'; limit := limit o1 |}.
Proof.
  intros H. rewrite !apply_app, H. repeat split.
Qed.

(** [adminOptions.rawQuery] leaves out an empty cursor and a limit that is
    not positive; when both are present the cursor comes first. *)
Theorem adminOptions_rawQuery_cases (o : adminOptions) :
  adminOptions_rawQuery o =
  ((if String.eqb (cursor o) "" then [] else [("cursor", cursor o)]) ++
   (if (0 <? limit o)%Z then [("limit", strconv_Itoa (limit o))] else []))%list.
Proof.
  unfold adminOptions_rawQuery.
  destruct (cursor o) as [|ch s]; destruct (0 <? limit o)%Z; reflexivity.
Qed.

End OptionEdges.

Section Reaching.
Context {D : Deps}.

Lemma mint_frame_refl (c : AdminClient) (st : State) : mint_frame c st st.
Proof. now left. Qed.

Lemma mint_frame_same_net (c : AdminClient) (st st1 : State) :
  mint_frame c st st1 -> same_net st st1.
Proof.
  intros [->|[p ->]]; [apply same_net_refl|].
  destruct (mint_effects c p st) as (Hl & Ht & Hs & _).
  repeat split; assumption.
Qed.

Lemma pure_ret {A} (a : A) : pure_step (ret a).
Proof. intros st. split; [reflexivity|discriminate]. Qed.

Lemma pure_fail {A} (e : Error) : pure_step (@fail D A e).
Proof. intros st. split; [reflexivity|discriminate]. Qed.

Lemma pure_lift {A} (r : Error + A) : pure_step (lift r).
Proof. destruct r; [apply pure_fail|apply pure_ret]. Qed.

Lemma pure_on_error {A} (wrap : Error -> Error) (m : M A) :
  pure_step m -> pure_step (on_error wrap m).
Proof.
  intros H st. specialize (H st). unfold on_error.
  destruct (m st) as [[a|e| |] st1]; cbn [fst snd] in *;
    (split; [apply H|first [discriminate|apply H]]).
Qed.

Lemma pure_http_NewRequest (method : string) (u : URL) (body : option string) :
  pure_step (http_NewRequest method u body).
Proof.
  unfold http_NewRequest.
  destruct (http_NewRequest_error method u); [apply pure_fail|apply pure_ret].
Qed.

Lemma Reaches_pure_bind {A B}
    (Q : Request -> string -> (Response -> M B) -> Prop)
    (c : AdminClient) (st0 : State) (m : M A) (k : A -> M B) (st1 : State) :
  mint_frame c st0 st1 ->
  pure_step m ->
  (forall a, m st1 = (Ret a, st1) -> Reaches Q c st0 (k a st1)) ->
  Reaches Q c st0 (bind m k st1).
Proof.
  intros Hfr Hm Hk. destruct (Hm st1) as [Hs Hne]. unfold bind.
  destruct (m st1) as [[a|e| |] s] eqn:E; cbn [fst snd] in *; subst s.
  - now apply Hk.
  - apply reaches_early; [assumption| |]; discriminate.
  - apply reaches_early; [assumption| |]; discriminate.
  - exfalso. now apply Hne.
Qed.

Lemma Reaches_mint {B} (Q : Request -> string -> (Response -> M B) -> Prop)
    (c : AdminClient) (st0 : State) (wrap : Error -> Error) (urlPath : string)
    (k : Token -> M B) :
  (forall tok st1,
      generateAdminToken c urlPath st0 = (Ret tok, st1) ->
      mint_frame c st0 st1 ->
      Reaches Q c st0 (k tok st1)) ->
  Reaches Q c st0 (bind (on_error wrap (generateAdminToken c urlPath)) k st0).
Proof.
  intros Hk. unfold bind, on_error.
  assert (Hfr : mint_frame c st0 (snd (generateAdminToken c urlPath st0)))
    by (right; now exists urlPath).
  destruct (mint_effects c urlPath st0) as (_ & _ & _ & _ & Hne & _).
  destruct (generateAdminToken c urlPath st0) as [[tok|e| |] st1];
    cbn [fst snd] in *.
  - now apply Hk.
  - apply reaches_early; [assumption| |]; discriminate.
  - apply reaches_early; [assumption| |]; discriminate.
  - exfalso. now apply Hne.
Qed.

Lemma Reaches_block {A B} (Q : Request -> string -> (Response -> M B) -> Prop)
    (c : AdminClient) (st0 : State) (req : Request) (format : string)
    (decode : Response -> M A) (f : A -> B) (fuel : nat) (st1 : State) :
  2 <= fuel ->
  mint_frame c st0 st1 ->
  Q req format (fun resp => bind (decode resp) (fun a => ret (f a))) ->
  Reaches Q c st0
          (bind (retry_block c (client_Do req) (wrapf format [ReqURL req])
                             decode fuel false)
                (fun a => ret (f a)) st1).
Proof.
  intros Hfuel Hfr HQ.
  rewrite retry_block_bind, retry_block_unroll by assumption.
  now apply reaches_block.
Qed.

Lemma lift_ret_inv {A} (r : Error + A) (a : A) (st st' : State) :
  lift r st = (Ret a, st') -> r = inr a.
Proof. destruct r; cbn; intros H; [discriminate|]. now injection H as <- _. Qed.

Lemma on_error_ret_inv {A} (wrap : Error -> Error) (m : M A) (a : A)
    (st st' : State) :
  on_error wrap m st = (Ret a, st') -> m st = (Ret a, st').
Proof.
  unfold on_error. destruct (m st) as [[x|e| |] s]; intros H;
    try discriminate; exact H.
Qed.

Lemma http_NewRequest_ret_inv (method : string) (u : URL) (body : option string)
    (req : Request) (st st' : State) :
  http_NewRequest method u body st = (Ret req, st') ->
  req = {| Method := method; ReqURL := u; Header := []; ReqBody := body |}.
Proof.
  unfold http_NewRequest. destruct (http_NewRequest_error method u); cbn;
    intros H; [discriminate|]. now injection H as <- _.
Qed.

Lemma nonempty_of_length (s : string) :
  (0 <? String.length s)%nat = true -> s <> "".
Proof. destruct s; [discriminate|discriminate]. Qed.

Lemma minted_authorized (c : AdminClient) (u : URL) (method : string)
    (body : option string) (tok : Token) (st st1 : State) :
  generateAdminToken c (Path u) st = (Ret tok, st1) ->
  authorized c (Header_Add "Authorization" tok
                  {| Method := method; ReqURL := u; Header := []; ReqBody := body |}).
Proof.
  intros H. apply mint_inv in H.
  destruct H as (jwk & Hjwk & _ & -> & _).
  eexists _, jwk. cbn. repeat split. exact Hjwk.
Qed.

Lemma keeps_tape_ret {A} (a : A) : keeps_tape (ret a).
Proof. intros st. split; reflexivity. Qed.

Lemma keeps_tape_readJSON {A B} (wrap : Error -> Error)
    (decode : string -> Error + A) (body : string) (f : A -> B) :
  keeps_tape (bind (on_error wrap (readJSON decode body)) (fun a => ret (f a))).
Proof.
  intros st.
  unfold on_error, readJSON, bind, Body_Close, lift, fail, ret.
  destruct (decode body); split; reflexivity.
Qed.

Lemma keeps_tape_readProtoJSON {A B} (wrap : Error -> Error)
    (decode : string -> Error + A) (body : string) (f : A -> B) :
  keeps_tape (bind (on_error wrap (readProtoJSON decode body))
                   (fun a => ret (f a))).
Proof. exact (keeps_tape_readJSON wrap decode body f). Qed.

Lemma keeps_tape_nil {A} (v : Value) (a : A) :
  keeps_tape (bind (ret a) (fun _ => @ret D Value v)).
Proof. intros st. split; reflexivity. Qed.

End Reaching.

Ltac pure_solve :=
  repeat first
    [ apply pure_on_error | apply pure_lift | apply pure_http_NewRequest
    | apply pure_ret | apply pure_fail
    | match goal with |- pure_step (if ?b then _ else _) => destruct b end ].

(** turn the equations left by the steps of a prelude into facts *)
Ltac prelude_facts :=
  repeat match goal with
    | H : on_error _ _ _ = (Ret _, _) |- _ => apply on_error_ret_inv in H
    | H : http_NewRequest _ _ _ _ = (Ret _, _) |- _ =>
        apply http_NewRequest_ret_inv in H; subst
    | H : lift _ _ = (Ret _, _) |- _ => apply lift_ret_inv in H
    | H : (if ?b then _ else _) _ = (Ret _, _) |- _ =>
        let E := fresh "E" in destruct b eqn:E
    | H : ret _ _ = (Ret _, _) |- _ => injection H as <-
    | H : fail _ _ = (Ret _, _) |- _ => discriminate H
    end.

Ltac on_wire_solve :=
  cbn [on_wire];
  repeat first [ eexists; split; [eassumption|] | split; try reflexivity ];
  try (left; apply nonempty_of_length; assumption);
  try (right; apply nonempty_of_length; assumption);
  try (unfold selector_url;
       match goal with E : (0 <? _)%nat = _ |- _ => rewrite E end;
       reflexivity).

Ltac at_block_solve :=
  unfold at_block; cbn [mints_token returns_error_only];
  split;
  [ on_wire_solve
  | split;
    [ first [ reflexivity | eapply minted_authorized; eassumption ]
    | split;
      [ intros; apply quiet_map;
        first [apply quiet_readJSON|apply quiet_readProtoJSON|apply quiet_ret]
      | split;
        [ intros;
          first [ apply keeps_tape_readJSON | apply keeps_tape_readProtoJSON
                | apply keeps_tape_nil ]
        | first [ discriminate | intros; reflexivity ] ] ] ] ].

Ltac reach_step :=
  first
    [ rewrite bind_assoc
    | apply Reaches_mint; intros ? ? ? ?
    | apply Reaches_block; [assumption|eassumption|at_block_solve]
    | apply Reaches_pure_bind;
      [eassumption|solve [pure_solve]|intros ? ?; cbv beta zeta; prelude_facts] ].

Section Reaching_exec.
Context {D : Deps}.

Lemma exec_reaches (c : AdminClient) (call : Call) (fuel : nat) (st : State) :
  2 <= fuel ->
  Reaches (at_block c call) c st (exec c call fuel st).
Proof.
  intros Hfuel. pose proof (mint_frame_refl c st) as Hfr.
  destruct call; unfold exec;
    unfold GetAdmin, GetAdminsPaginate, CreateAdmin, RemoveAdmin, UpdateAdmin,
           GetProvisioner, GetProvisionersPaginate, RemoveProvisioner,
           CreateProvisioner, UpdateProvisioner, client_Get; cbv zeta.
  all: repeat reach_step.
Qed.

Lemma Reaches_Runs {A} (Q : Request -> string -> (Response -> M A) -> Prop)
    (P : Request -> Prop) (c : AdminClient) (st : State)
    (x : outcome A * State) :
  (forall req format decode,
      Q req format decode -> P req /\ forall resp, quiet (decode resp)) ->
  Reaches Q c st x -> Runs P c st x.
Proof.
  intros HQ H. destruct H as [r st1 Hfr Hr Hf|st1 req format decode Hfr Hq].
  - apply runs_early; [now apply (mint_frame_same_net c)|assumption|assumption].
  - destruct (HQ _ _ _ Hq) as [HP Hquiet].
    apply runs_block; [now apply (mint_frame_same_net c)|assumption|assumption].
Qed.

(** Every request of the nine operations that mint a token, the replay
    included, carries exactly one header: an Authorization token whose only
    audience is the path of the request URL, and whose key id, issuer,
    subject and certificate chain are the client's. *)
Theorem requests_authorized (c : AdminClient) (call : Call) (fuel : nat)
    (st : State) :
  2 <= fuel ->
  mints_token call = true ->
  exists l,
    wLog (snd (exec c call fuel st)) = (wLog st ++ l)%list /\
    all_sent (authorized c) l.
Proof.
  intros Hfuel Hmints.
  apply Runs_all_sent with (c := c).
  apply (Reaches_Runs (at_block c call)); [|now apply exec_reaches].
  intros req format decode (_ & Hauth & Hq & _).
  rewrite Hmints in Hauth. now split.
Qed.

(** Every request of an operation, the replay included, has the method, the
    URL and the body the operation builds: GET, POST, PATCH (for
    [UpdateAdmin]), PUT or DELETE, the marshalled request as body where
    there is one, and for a provisioner lookup the id form of the URL when
    the id is set and the name form otherwise. *)
Theorem requests_on_wire (c : AdminClient) (call : Call) (fuel : nat)
    (st : State) :
  2 <= fuel ->
  exists l,
    wLog (snd (exec c call fuel st)) = (wLog st ++ l)%list /\
    all_sent (on_wire c call) l.
Proof.
  intros Hfuel.
  apply Runs_all_sent with (c := c).
  apply (Reaches_Runs (at_block c call)); [|now apply exec_reaches].
  intros req format decode (Hwire & _ & Hq & _). now split.
Qed.

Lemma retry_state_tape (c : AdminClient) (r : Response) (st : State) :
  wEntropy (retry_state c r st) = wEntropy st /\
  wClockReads (retry_state c r st) = wClockReads st.
Proof.
  unfold retry_state. destruct (retryFunc c) as [f|]; [|now split].
  destruct (f (StatusCode r)); [|now split].
  destruct (rebuild c); now split.
Qed.

Lemma two_attempts_keeps_tape {A} (c : AdminClient) (req : Request)
    (wrap : Error -> Error) (decode : Response -> M A) :
  (forall resp, keeps_tape (decode resp)) ->
  keeps_tape (two_attempts c req wrap decode).
Proof.
  intros Hk st. unfold two_attempts.
  destruct (round_trip req st) as [e|r1]; [now split|].
  destruct (400 <=? StatusCode r1)%Z.
  2:{ destruct (Hk r1 (after_send req st)) as [-> ->]. now split. }
  destruct (retry_state_tape c r1 (after_send req st)) as [He Hc].
  destruct (retry_signal c r1); [|cbn; now rewrite He, Hc].
  destruct (round_trip req _) as [e|r2]; [cbn; now rewrite He, Hc|].
  destruct (400 <=? StatusCode r2)%Z; [cbn; now rewrite He, Hc|].
  destruct (Hk r2 (after_send req (retry_state c r1 (after_send req st))))
    as [-> ->].
  cbn. now rewrite He, Hc.
Qed.

(** A logical call mints at most one token, also when it retries: it
    leaves entropy and clock as they were, or has consumed exactly 64
    values of entropy and one clock reading. *)
Theorem one_mint_per_call (c : AdminClient) (call : Call) (fuel : nat)
    (st : State) :
  2 <= fuel ->
  (wEntropy (snd (exec c call fuel st)) = wEntropy st /\
   wClockReads (snd (exec c call fuel st)) = wClockReads st) \/
  (64 <= List.length (wEntropy st) /\
   wEntropy (snd (exec c call fuel st)) = skipn 64 (wEntropy st) /\
   wClockReads (snd (exec c call fuel st)) = S (wClockReads st)).
Proof.
  intros Hfuel.
  assert (Hframe : forall st1,
             mint_frame c st st1 ->
             (wEntropy st1 = wEntropy st /\ wClockReads st1 = wClockReads st) \/
             (64 <= List.length (wEntropy st) /\
              wEntropy st1 = skipn 64 (wEntropy st) /\
              wClockReads st1 = S (wClockReads st))).
  { intros st1 [->|[p ->]]; [now left|].
    destruct (mint_effects c p st) as (_ & _ & _ & _ & _ & [->|H]);
      [now left|now right]. }
  destruct (exec_reaches c call fuel st Hfuel)
    as [r st1 Hfr Hr Hf|st1 req format decode Hfr (_ & _ & _ & Hk & _)].
  - now apply Hframe.
  - destruct (two_attempts_keeps_tape c req (wrapf format [ReqURL req]) decode
                Hk st1) as [-> ->].
    now apply Hframe.
Qed.

End Reaching_exec.

Section Bodies.
Context {D : Deps}.

Lemma responses_app (l1 l2 : list Event) :
  responses (l1 ++ l2) = (responses l1 ++ responses l2)%list.
Proof.
  induction l1 as [|ev l1 IH]; [reflexivity|].
  destruct ev as [tr req [e|r]| | |]; cbn; now rewrite ?IH.
Qed.

Lemma below_400 (code : Z) : (400 <=? code)%Z = false -> (code <? 400)%Z = true.
Proof. intros H. apply Z.leb_gt in H. now apply Z.ltb_lt. Qed.

Lemma not_below_400 (code : Z) : (400 <=? code)%Z = true -> (code <? 400)%Z = false.
Proof. intros H. apply Z.leb_le in H. apply Z.ltb_ge. exact H. Qed.

Ltac crunch :=
  do 3 (cbn;
        repeat match goal with
          | H : (_ <? 400)%Z = _ |- _ => rewrite !H
          end;
        rewrite ?String.eqb_refl).

Ltac expose_log :=
  cbn [fst snd wLog log_event set_transport after_send wTransport];
  rewrite <- ?app_assoc; cbn [app];
  eexists; split; [reflexivity|].

Lemma two_attempts_nil_bodies (c : AdminClient) (req : Request)
    (wrap : Error -> Error) (decode : Response -> M Value) (st : State) :
  (forall resp s, decode resp s = (Ret VNil, s)) ->
  exists l,
    wLog (snd (two_attempts c req wrap decode st)) = (wLog st ++ l)%list /\
    open_bodies l [] =
      map Body (filter (fun r => (StatusCode r <? 400)%Z) (responses l)) /\
    (forall r, In r (responses l) -> (StatusCode r < 400)%Z ->
               fst (two_attempts c req wrap decode st) = Ret VNil).
Proof.
  intros Hd. unfold two_attempts, after_send.
  destruct (round_trip req st) as [e|r1] eqn:R1.
  { expose_log. cbn. split; [reflexivity|].
    intros r []. }
  destruct (400 <=? StatusCode r1)%Z eqn:H1.
  2:{ rewrite Hd. expose_log.
      pose proof (below_400 _ H1) as B1. crunch. split; reflexivity. }
  pose proof (not_below_400 _ H1) as N1. apply Z.leb_le in H1.
  unfold retry_signal, retry_state, recognises.
  destruct (retryFunc c) as [f|].
  2:{ cbn [andb]. expose_log.
      crunch. split; [reflexivity|].
      intros r [<-|[]] Hlt. lia. }
  destruct (f (StatusCode r1)).
  2:{ cbn [andb]. expose_log.
      crunch. split; [reflexivity|].
      intros r [<-|[]] Hlt. lia. }
  destruct (rebuild c) as [tr2|].
  2:{ cbn [andb]. expose_log.
      crunch. split; [reflexivity|].
      intros r [<-|[]] Hlt. lia. }
  cbn [andb].
  match goal with
  | |- context [round_trip req ?s] =>
      destruct (round_trip req s) as [e|r2] eqn:R2
  end.
  { expose_log. crunch. split; [reflexivity|].
    intros r [<-|[]] Hlt. lia. }
  destruct (400 <=? StatusCode r2)%Z eqn:H2.
  { pose proof (not_below_400 _ H2) as N2. apply Z.leb_le in H2.
    expose_log. crunch.
    split; [reflexivity|].
    intros r [<-|[<-|[]]] Hlt; lia. }
  rewrite Hd.
  expose_log. pose proof (below_400 _ H2) as B2. crunch.
  split; reflexivity.
Qed.

(** [RemoveAdmin], [RemoveProvisioner] and [UpdateProvisioner] return nil
    on an answer below 400 without touching its body: when the call
    returns, the bodies still open are exactly those of the answers below
    400, and the bodies of the answers of 400 or more have been closed. *)
Theorem error_only_leaves_body_open (c : AdminClient) (call : Call)
    (fuel : nat) (st : State) :
  2 <= fuel ->
  returns_error_only call = true ->
  exists l,
    wLog (snd (exec c call fuel st)) = (wLog st ++ l)%list /\
    open_bodies l [] =
      map Body (filter (fun r => (StatusCode r <? 400)%Z) (responses l)) /\
    (forall r, In r (responses l) -> (StatusCode r < 400)%Z ->
               fst (exec c call fuel st) = Ret VNil).
Proof.
  intros Hfuel Honly.
  destruct (exec_reaches c call fuel st Hfuel)
    as [r st1 Hfr Hr Hf|st1 req format decode Hfr (_ & _ & _ & _ & Hd)].
  - destruct (mint_frame_same_net c st st1 Hfr) as (Hl & _).
    exists []. cbn [snd]. rewrite Hl, app_nil_r.
    split; [reflexivity|]. split; [reflexivity|]. intros r0 [].
  - destruct (mint_frame_same_net c st st1 Hfr) as (Hl & _).
    destruct (two_attempts_nil_bodies c req (wrapf format [ReqURL req])
                decode st1 (Hd Honly)) as (l & Hlog & Hopen & Hret).
    exists l. rewrite Hlog, Hl. split; [reflexivity|]. now split.
Qed.

Lemma two_attempts_refused_closed {A} (c : AdminClient) (req : Request)
    (wrap : Error -> Error) (decode : Response -> M A) (st : State) :
  (forall resp, quiet (decode resp)) ->
  exists l,
    wLog (snd (two_attempts c req wrap decode st)) = (wLog st ++ l)%list /\
    ((forall r, In r (responses l) -> (400 <= StatusCode r)%Z) ->
     open_bodies l [] = []).
Proof.
  intros Hq. unfold two_attempts, after_send.
  destruct (round_trip req st) as [e|r1] eqn:R1.
  { expose_log. reflexivity. }
  destruct (400 <=? StatusCode r1)%Z eqn:H1.
  2:{ apply Z.leb_gt in H1.
      match goal with
      | |- context [decode r1 ?s] =>
          destruct (Hq r1 s) as (_ & _ & _ & ld & Hlog & _)
      end.
      rewrite Hlog.
      cbn [wLog log_event]. rewrite <- app_assoc. cbn [app].
      eexists. split; [reflexivity|].
      intros Hall. specialize (Hall r1 (or_introl eq_refl)). lia. }
  unfold retry_signal, retry_state, recognises.
  destruct (retryFunc c) as [f|].
  2:{ cbn [andb]. expose_log.
      intros _. crunch. reflexivity. }
  destruct (f (StatusCode r1)).
  2:{ cbn [andb]. expose_log.
      intros _. crunch. reflexivity. }
  destruct (rebuild c) as [tr2|].
  2:{ cbn [andb]. expose_log.
      intros _. crunch. reflexivity. }
  cbn [andb].
  match goal with
  | |- context [round_trip req ?s] =>
      destruct (round_trip req s) as [e|r2] eqn:R2
  end.
  { expose_log. intros _. crunch. reflexivity. }
  destruct (400 <=? StatusCode r2)%Z eqn:H2.
  { expose_log. intros _. crunch. reflexivity. }
  apply Z.leb_gt in H2.
  match goal with
  | |- context [decode r2 ?s] =>
      destruct (Hq r2 s) as (_ & _ & _ & ld & Hlog & _)
  end.
  rewrite Hlog.
  cbn [wLog log_event set_transport wTransport].
  rewrite <- !app_assoc. cbn [app].
  eexists. split; [reflexivity|].
  intros Hall.
  specialize (Hall r2). cbn in Hall.
  assert (400 <= StatusCode r2)%Z by (apply Hall; right; now left). lia.
Qed.

(** For every operation: when all the answers of a call have a status of
    400 or more, every body received has been closed by the time the call
    returns, the one of the retried answer by [retryOnError] and the last
    one by [readAdminError]. *)
Theorem refused_bodies_closed (c : AdminClient) (call : Call) (fuel : nat)
    (st : State) :
  2 <= fuel ->
  exists l,
    wLog (snd (exec c call fuel st)) = (wLog st ++ l)%list /\
    ((forall r, In r (responses l) -> (400 <= StatusCode r)%Z) ->
     open_bodies l [] = []).
Proof.
  intros Hfuel.
  destruct (exec_reaches c call fuel st Hfuel)
    as [r st1 Hfr Hr Hf|st1 req format decode Hfr (_ & _ & Hq & _)].
  - destruct (mint_frame_same_net c st st1 Hfr) as (Hl & _).
    exists []. cbn [snd]. rewrite Hl, app_nil_r. now split.
  - destruct (mint_frame_same_net c st st1 Hfr) as (Hl & _).
    destruct (two_attempts_refused_closed c req (wrapf format [ReqURL req])
                decode st1 Hq) as (l & Hlog & Hopen).
    exists l. rewrite Hlog, Hl. now split.
Qed.

(** [GetAdmin] mints no token: its requests carry no header at all, and the
    call reads neither entropy nor clock. *)
Theorem GetAdmin_unauthenticated (c : AdminClient) (id : string) (fuel : nat)
    (st : State) :
  2 <= fuel ->
  (exists l,
      wLog (snd (exec c (CallGetAdmin id) fuel st)) = (wLog st ++ l)%list /\
      all_sent (fun req => Header req = []) l) /\
  wEntropy (snd (exec c (CallGetAdmin id) fuel st)) = wEntropy st /\
  wClockReads (snd (exec c (CallGetAdmin id) fuel st)) = wClockReads st.
Proof.
  intros Hfuel. split.
  - apply Runs_all_sent with (c := c).
    apply (Reaches_Runs (at_block c (CallGetAdmin id))); [|now apply exec_reaches].
    intros req format decode (_ & Hauth & Hq & _). now split.
  - unfold exec, GetAdmin, client_Get.
    rewrite retry_block_bind, retry_block_unroll by assumption.
    apply two_attempts_keeps_tape. intros resp.
    apply keeps_tape_readProtoJSON.
Qed.

End Bodies.

Section Transport.
Context {D : Deps}.

(** The first attempt of a call goes over the transport installed when the
    call starts.  Without a replay that transport is still installed when
    the call returns; a replay goes over the transport rebuilt from the
    client's options, and that one stays installed, whatever the replay
    brought. *)
Theorem transport_after_call (c : AdminClient) (call : Call) (fuel : nat)
    (st : State) :
  2 <= fuel ->
  exists l,
    wLog (snd (exec c call fuel st)) = (wLog st ++ l)%list /\
    (forall tr req res rest,
        sends l = EvSend tr req res :: rest -> tr = wTransport st) /\
    (List.length (sends l) <= 1 ->
     wTransport (snd (exec c call fuel st)) = wTransport st) /\
    (forall s1 tr2 req2 res2,
        sends l = [s1; EvSend tr2 req2 res2] ->
        rebuild c = Some tr2 /\
        wTransport (snd (exec c call fuel st)) = tr2).
Proof.
  intros Hfuel.
  destruct (exec_trace c call fuel st Hfuel) as (l & Hlog & Htrace).
  exists l. split; [exact Hlog|].
  remember (fst (exec c call fuel st)) as r eqn:Er.
  remember (wTransport (snd (exec c call fuel st))) as trf eqn:Et.
  clear Er Et Hlog.
  destruct Htrace as [r Hr Hf|req format l r trf _ Hb].
  { cbn. repeat split; intros; try discriminate; reflexivity. }
  destruct Hb; unfold sends in *; cbn [filter is_send app] in *;
    rewrite ?filter_app in *; cbn [filter is_send app] in *;
    repeat match goal with
      | Hs : filter is_send ?ld = [] |- _ => rewrite !Hs in *; clear Hs
      end;
    cbn [app List.length];
    (split; [intros tr0 req0 res0 rest0 Hs; now inversion Hs|]);
    (split; [intros Hlen; first [reflexivity|exfalso; lia]|]);
    intros s1 tr0 req0 res0 Hs; inversion Hs; subst; now split.
Qed.

(** An answer below 400 to the first attempt ends the call: there is no
    replay and the transport stays, whatever the retry predicate says of
    that status. *)
Theorem success_not_retried (c : AdminClient) (call : Call) (fuel : nat)
    (st : State) :
  2 <= fuel ->
  exists l,
    wLog (snd (exec c call fuel st)) = (wLog st ++ l)%list /\
    forall tr req r1 rest,
      sends l = EvSend tr req (inr r1) :: rest ->
      (StatusCode r1 < 400)%Z ->
      rest = [] /\
      wTransport (snd (exec c call fuel st)) = wTransport st.
Proof.
  intros Hfuel.
  destruct (exec_trace c call fuel st Hfuel) as (l & Hlog & Htrace).
  exists l. split; [exact Hlog|].
  remember (fst (exec c call fuel st)) as r eqn:Er.
  remember (wTransport (snd (exec c call fuel st))) as trf eqn:Et.
  clear Er Et Hlog.
  destruct Htrace as [r Hr Hf|req format l r trf _ Hb].
  { intros tr req r1 rest Hs. discriminate Hs. }
  intros tr req' r1' rest Hs Hlt.
  destruct Hb; unfold sends in *; cbn [filter is_send app] in *;
    rewrite ?filter_app in *; cbn [filter is_send app] in *;
    repeat match goal with
      | Hs : filter is_send ?ld = [] |- _ => rewrite !Hs in *; clear Hs
      end;
    cbn [app] in Hs; inversion Hs; subst; try lia; now split.
Qed.

End Transport.

Section EarlyFailures.
Context {D : Deps}.

(** When an option of the caller fails, [GetAdminsPaginate],
    [GetProvisioner], [GetProvisionersPaginate] and [RemoveProvisioner]
    return the option's error as it is and do nothing else: no token is
    minted and nothing is sent. *)
Theorem option_error_before_network (c : AdminClient) (fuel : nat) (st : State) :
  (forall opts e,
      adminOptions_apply new_adminOptions opts = inl e ->
      GetAdminsPaginate c opts fuel st = (Fail e, st)) /\
  (forall opts e,
      provisionerOptions_apply new_provisionerOptions opts = inl e ->
      GetProvisioner c opts fuel st = (Fail e, st) /\
      GetProvisionersPaginate c opts fuel st = (Fail e, st) /\
      RemoveProvisioner c opts fuel st = (Fail e, st)).
Proof.
  split.
  - intros opts e H. unfold GetAdminsPaginate, bind. now rewrite H.
  - intros opts e H.
    unfold GetProvisioner, GetProvisionersPaginate, RemoveProvisioner, bind.
    now rewrite H.
Qed.

(** When the request cannot be marshalled, [CreateAdmin], [UpdateAdmin],
    [CreateProvisioner] and [UpdateProvisioner] return the marshalling
    error wrapped by [errs.Wrap] with status 500 and do nothing else: no
    token is minted and nothing is sent. *)
Theorem marshal_error_before_network (c : AdminClient) (fuel : nat) (st : State) :
  (forall r e,
      json_Marshal_CreateAdminRequest r = inl e ->
      CreateAdmin c r fuel st =
      (Fail (errs_Wrap 500 e "error marshaling request"), st)) /\
  (forall id uar e,
      json_Marshal_UpdateAdminRequest uar = inl e ->
      UpdateAdmin c id uar fuel st =
      (Fail (errs_Wrap 500 e "error marshaling request"), st)) /\
  (forall name prov e,
      protojson_Marshal prov = inl e ->
      CreateProvisioner c prov fuel st =
      (Fail (errs_Wrap 500 e "error marshaling request"), st) /\
      UpdateProvisioner c name prov fuel st =
      (Fail (errs_Wrap 500 e "error marshaling request"), st)).
Proof.
  split; [|split].
  - intros r e H. unfold CreateAdmin, bind, on_error. now rewrite H.
  - intros id uar e H. unfold UpdateAdmin, bind, on_error. now rewrite H.
  - intros name prov e H.
    unfold CreateProvisioner, UpdateProvisioner, bind, on_error. now rewrite H.
Qed.

Lemma exec_dry (c : AdminClient) (call : Call) (fuel : nat) (st : State) :
  List.length (wEntropy st) < 64 ->
  mints_token call = true ->
  Reaches (fun _ _ _ => False) c st (exec c call fuel st).
Proof.
  intros Hdry Hmints. pose proof (mint_frame_refl c st) as Hfr.
  destruct call; try discriminate Hmints; unfold exec;
    unfold GetAdminsPaginate, CreateAdmin, RemoveAdmin, UpdateAdmin,
           GetProvisioner, GetProvisionersPaginate, RemoveProvisioner,
           CreateProvisioner, UpdateProvisioner; cbv zeta;
    repeat first
      [ rewrite bind_assoc
      | apply Reaches_mint;
        let Hm := fresh "Hm" in
        intros ? ? Hm ?;
        rewrite mint_dry in Hm by assumption; discriminate Hm
      | apply Reaches_pure_bind;
        [eassumption|solve [pure_solve]|intros ? ?; cbv beta zeta] ].
Qed.

(** When the random source has fewer than 64 values left, the nine
    operations that mint a token return no value and leave the state as it
    was, whatever the fuel: nothing is sent.  [RemoveAdmin], whose first
    step is the mint, returns the source's error wrapped as
    "error generating admin token". *)
Theorem dry_entropy_before_network (c : AdminClient) (call : Call) (fuel : nat)
    (st : State) :
  List.length (wEntropy st) < 64 ->
  mints_token call = true ->
  snd (exec c call fuel st) = st /\
  (forall v, fst (exec c call fuel st) <> Ret v) /\
  fst (exec c call fuel st) <> OutOfFuel /\
  (forall id,
      RemoveAdmin c id fuel st =
      (Fail (errors_Wrapf (external_error "crypto/rand")
                          "error generating admin token" []), st)).
Proof.
  intros Hdry Hmints.
  pose proof (exec_dry c call fuel st Hdry Hmints) as H.
  remember (exec c call fuel st) as x eqn:Ex. clear Ex.
  split; [|split; [|split]].
  - destruct H as [r st1 [->|[p ->]] Hr Hf|st1 req format decode Hfr []];
      cbn [snd]; [reflexivity|].
    now rewrite mint_dry by assumption.
  - destruct H as [r st1 Hfr Hr Hf|st1 req format decode Hfr []]. exact Hr.
  - destruct H as [r st1 Hfr Hr Hf|st1 req format decode Hfr []]. exact Hf.
  - intros id. unfold RemoveAdmin, bind, on_error.
    now rewrite mint_dry by assumption.
Qed.

End EarlyFailures.

Section Unbounded.
Context {D : Deps}.

Lemma GetAdmins_loop_short (c : AdminClient) (fuel : nat) cur st ps cur' st1 :
  page_run (fetch_admins c fuel) (@NextCursor Admin) cur st ps cur' st1 ->
  forall pages acc,
    pages <= List.length ps ->
    fst (GetAdmins_loop c fuel pages cur acc st) = OutOfFuel.
Proof.
  induction 1 as [cur st|cur st p st1 ps cur' st' Hfetch Hnext Hrun IH];
    intros pages acc Hlen; cbn [List.length] in Hlen.
  - assert (pages = 0) by lia. subst pages. reflexivity.
  - destruct pages as [|pages]; [reflexivity|].
    cbn [GetAdmins_loop]. fold (fetch_admins c fuel cur).
    unfold bind at 1. rewrite Hfetch, (eqb_nonempty _ Hnext).
    apply IH. lia.
Qed.

Lemma GetProvisioners_loop_short (c : AdminClient) (fuel : nat)
    cur st ps cur' st1 :
  page_run (fetch_provisioners c fuel)
           (@ProvisionersNextCursor ProvisionerInterface) cur st ps cur' st1 ->
  forall pages acc,
    pages <= List.length ps ->
    fst (GetProvisioners_loop c fuel pages cur acc st) = OutOfFuel.
Proof.
  induction 1 as [cur st|cur st p st1 ps cur' st' Hfetch Hnext Hrun IH];
    intros pages acc Hlen; cbn [List.length] in Hlen.
  - assert (pages = 0) by lia. subst pages. reflexivity.
  - destruct pages as [|pages]; [reflexivity|].
    cbn [GetProvisioners_loop]. fold (fetch_provisioners c fuel cur).
    unfold bind at 1. rewrite Hfetch, (eqb_nonempty _ Hnext).
    apply IH. lia.
Qed.

(** The aggregators have no bound of their own: as long as every page names
    a next cursor they fetch the next page.  After [n] such pages a run of
    [GetAdmins] or [GetProvisioners] that is given [n] iterations or fewer
    has not returned. *)
Theorem aggregators_follow_every_cursor (c : AdminClient)
    (opts : list AdminOption) (fuel : nat) (st : State) :
  (forall ps cur st1,
      page_run (fetch_admins c fuel) (@NextCursor Admin) "" st ps cur st1 ->
      fuel <= List.length ps ->
      fst (GetAdmins c opts fuel st) = OutOfFuel) /\
  (forall ps cur st1,
      page_run (fetch_provisioners c fuel)
               (@ProvisionersNextCursor ProvisionerInterface) "" st ps cur st1 ->
      fuel <= List.length ps ->
      fst (GetProvisioners c opts fuel st) = OutOfFuel).
Proof.
  split; intros ps cur st1 Hrun Hlen.
  - unfold GetAdmins. now apply (GetAdmins_loop_short c fuel _ _ _ _ _ Hrun).
  - unfold GetProvisioners.
    now apply (GetProvisioners_loop_short c fuel _ _ _ _ _ Hrun).
Qed.

End Unbounded.

Section NoPanic.
Context {D : Deps}.








(** On a client whose [x5cJWK] is nil the mint does not return an error:
    it draws the JWT id, reads the clock and then dereferences the nil key.
    [RemoveAdmin], whose first step is the mint, panics with it: nothing is
    sent and nothing is returned. *)
Theorem nil_key_panics (c : AdminClient) (st : State) :
  x5cJWK c = None ->
  64 <= List.length (wEntropy st) ->
  (forall urlPath,
      generateAdminToken c urlPath st =
      (Panic, tick_clock (set_entropy (skipn 64 (wEntropy st)) st))) /\
  (forall id fuel,
      fst (RemoveAdmin c id fuel st) = Panic /\
      wLog (snd (RemoveAdmin c id fuel st)) = wLog st).
Proof.
  intros Hkey Hlen. split.
  - intros urlPath. now apply mint_nil_key.
  - intros id fuel. unfold RemoveAdmin, bind, on_error.
    rewrite mint_nil_key by assumption. split; reflexivity.
Qed.

End NoPanic.

(** * The further properties on the fake CA *)

Module MoreScenarios.
Import Fixture Faults.

Lemma generateAdminToken_sound_witness :
  exists tok st',
    generateAdminToken adminClient "/admin/admins" fix_pages = (Ret tok, st') /\
    aud (tokClaims tok) = ["/admin/admins"] /\
    sub (tokClaims tok) = "step" /\
    wEntropy st' = skipn 64 tape.
Proof.
  destruct (generateAdminToken adminClient "/admin/admins" fix_pages)
    as [r st'] eqn:E.
  assert (Hr : exists tok, r = Ret tok).
  { assert (Hf : fst (generateAdminToken adminClient "/admin/admins" fix_pages)
                 = r) by now rewrite E.
    rewrite <- Hf. eexists. vm_compute. reflexivity. }
  destruct Hr as (tok & ->).
  destruct (generateAdminToken_sound adminClient "/admin/admins" fix_pages st'
              tok E) as (jwk & Hjwk & _ & -> & ->).
  injection Hjwk as <-.
  eexists _, _. split; [reflexivity|]. repeat split.
Defined.

Lemma requests_authorized_witness :
  2 <= 2 /\
  mints_token (@CallRemoveAdmin deps "x") = true /\
  exists l,
    wLog (snd (exec adminClient (CallRemoveAdmin "x") 2 fix_revoked)) =
    (wLog fix_revoked ++ l)%list /\
    all_sent (authorized adminClient) l.
Proof.
  split; [apply le_n|]. split; [reflexivity|].
  exact (requests_authorized adminClient (CallRemoveAdmin "x") 2 fix_revoked
           (le_n 2) eq_refl).
Defined.

Lemma requests_on_wire_witness :
  2 <= 2 /\
  exists l,
    wLog (snd (exec adminClient (@CallUpdateAdmin deps "x" "superadmin") 2
                 fix_revoked)) =
    (wLog fix_revoked ++ l)%list /\
    all_sent
      (fun req =>
         Method req = "PATCH" /\ ReqBody req = Some "superadmin" /\
         Path (ReqURL req) = "/admin/admins/x") l.
Proof.
  split; [apply le_n|].
  destruct (requests_on_wire adminClient (@CallUpdateAdmin deps "x" "superadmin")
              2 fix_revoked (le_n 2)) as (l & Hlog & Hall).
  exists l. split; [exact Hlog|].
  intros tr req res Hin.
  destruct (Hall tr req res Hin) as (body & Hbody & Hm & Hb & Hu).
  injection Hbody as <-.
  split; [exact Hm|]. split; [exact Hb|]. rewrite Hu. reflexivity.
Defined.

Lemma one_mint_per_call_witness :
  2 <= 2 /\
  wEntropy (snd (exec adminClient (CallRemoveAdmin "x") 2 fix_revoked)) =
  skipn 64 (wEntropy fix_revoked) /\
  List.length (sends (wLog (snd (exec adminClient (CallRemoveAdmin "x") 2
                                   fix_revoked)))) = 2.
Proof.
  split; [apply le_n|].
  destruct (one_mint_per_call adminClient (CallRemoveAdmin "x") 2 fix_revoked
              (le_n 2)) as [[He _]|(_ & He & _)].
  - exfalso.
    assert (Hne : wEntropy (snd (exec adminClient (CallRemoveAdmin "x") 2
                                   fix_revoked)) <> wEntropy fix_revoked)
      by (vm_compute; discriminate).
    exact (Hne He).
  - split; [exact He|]. vm_compute. reflexivity.
Defined.

Lemma error_only_leaves_body_open_witness :
  2 <= 2 /\
  returns_error_only (@CallRemoveAdmin deps "x") = true /\
  responses (wLog (snd (exec adminClient (CallRemoveAdmin "x") 2 fix_rotation))) =
    [revoked; {| StatusCode := 204; Body := "" |}] /\
  fst (exec adminClient (CallRemoveAdmin "x") 2 fix_rotation) = Ret VNil /\
  open_bodies (wLog (snd (exec adminClient (CallRemoveAdmin "x") 2 fix_rotation)))
              [] = [""].
Proof.
  split; [apply le_n|]. split; [reflexivity|].
  destruct (error_only_leaves_body_open adminClient (CallRemoveAdmin "x") 2
              fix_rotation (le_n 2) eq_refl) as (l & Hlog & Hopen & Hret).
  cbn [wLog fix_rotation state app] in Hlog.
  assert (Hresp : responses l = [revoked; {| StatusCode := 204; Body := "" |}])
    by (rewrite <- Hlog; vm_compute; reflexivity).
  rewrite Hlog. split; [exact Hresp|]. split.
  - apply (Hret {| StatusCode := 204; Body := "" |}).
    + rewrite Hresp. right. now left.
    + reflexivity.
  - rewrite Hopen, Hresp. reflexivity.
Defined.

Lemma refused_bodies_closed_witness :
  2 <= 2 /\
  responses (wLog (snd (exec adminClient (CallRemoveAdmin "x") 2 fix_revoked))) =
    [revoked; revoked] /\
  open_bodies (wLog (snd (exec adminClient (CallRemoveAdmin "x") 2 fix_revoked)))
              [] = [].
Proof.
  split; [apply le_n|].
  destruct (refused_bodies_closed adminClient (CallRemoveAdmin "x") 2
              fix_revoked (le_n 2)) as (l & Hlog & Hclosed).
  cbn [wLog fix_revoked state app] in Hlog.
  assert (Hresp : responses l = [revoked; revoked])
    by (rewrite <- Hlog; vm_compute; reflexivity).
  rewrite Hlog. split; [exact Hresp|].
  apply Hclosed. rewrite Hresp.
  intros r [<-|[<-|[]]]; discriminate.
Defined.

Lemma GetAdmin_unauthenticated_witness :
  2 <= 2 /\
  (exists l,
      wLog (snd (exec adminClient (CallGetAdmin "x") 2 fix_revoked)) =
      (wLog fix_revoked ++ l)%list /\
      all_sent (fun req => Header req = []) l) /\
  wEntropy (snd (exec adminClient (CallGetAdmin "x") 2 fix_revoked)) = tape.
Proof.
  split; [apply le_n|].
  destruct (GetAdmin_unauthenticated adminClient "x" 2 fix_revoked (le_n 2))
    as (Hsent & He & _).
  split; [exact Hsent|exact He].
Defined.

Lemma transport_after_call_witness :
  2 <= 2 /\
  rebuild adminClient = Some 2 /\
  wTransport fix_revoked = 0 /\
  wTransport (snd (exec adminClient (CallRemoveAdmin "x") 2 fix_revoked)) = 2.
Proof.
  split; [apply le_n|]. split; [reflexivity|]. split; [reflexivity|].
  destruct (transport_after_call adminClient (CallRemoveAdmin "x") 2 fix_revoked
              (le_n 2)) as (l & Hlog & _ & _ & Hreplay).
  cbn [wLog fix_revoked state app] in Hlog.
  assert (Hs : exists s1 req2 res2, sends l = [s1; @EvSend deps 2 req2 res2])
    by (rewrite <- Hlog; eexists _, _, _; vm_compute; reflexivity).
  destruct Hs as (s1 & req2 & res2 & Hs).
  exact (proj2 (Hreplay s1 2 req2 res2 Hs)).
Defined.

Lemma success_not_retried_witness :
  2 <= 2 /\
  List.length (sends (wLog (snd (exec adminClient (CallRemoveAdmin "x") 2
                                   fix_ok)))) = 1 /\
  wTransport (snd (exec adminClient (CallRemoveAdmin "x") 2 fix_ok)) = 0.
Proof.
  split; [apply le_n|].
  destruct (success_not_retried adminClient (CallRemoveAdmin "x") 2 fix_ok
              (le_n 2)) as (l & Hlog & Hfirst).
  cbn [wLog fix_ok state app] in Hlog.
  assert (Hs : exists req rest,
             sends l = @EvSend deps 0 req (inr {| StatusCode := 204; Body := "" |})
                       :: rest)
    by (rewrite <- Hlog; eexists _, _; vm_compute; reflexivity).
  destruct Hs as (req & rest & Hs).
  destruct (Hfirst 0 req _ rest Hs eq_refl) as (-> & Htr).
  rewrite Hlog. split; [now rewrite Hs|exact Htr].
Defined.

Lemma option_error_before_network_witness :
  GetAdminsPaginate adminClient [WithAdminLimit 5; bad_option] 2 fix_pages =
    (Fail (errors_New "bad option"), fix_pages) /\
  GetProvisioner adminClient [bad_provisioner_option; with_id_and_name] 2 fix_pages =
    (Fail (errors_New "bad option"), fix_pages).
Proof.
  destruct (option_error_before_network adminClient 2 fix_pages) as [HA HP].
  split.
  - exact (HA [WithAdminLimit 5; bad_option] (errors_New "bad option") eq_refl).
  - exact (proj1 (HP [bad_provisioner_option; with_id_and_name]
                     (errors_New "bad option") eq_refl)).
Defined.

Lemma marshal_error_before_network_witness :
  CreateAdmin adminClient_unmarshalable "new-admin" 2 fix_unmarshalable =
    (Fail (errs_Wrap 500 (external_error "json: unsupported value")
                     "error marshaling request"), fix_unmarshalable) /\
  UpdateProvisioner adminClient_unmarshalable "acme" "prov" 2 fix_unmarshalable =
    (Fail (errs_Wrap 500 (external_error "proto: invalid UTF-8")
                     "error marshaling request"), fix_unmarshalable).
Proof.
  destruct (marshal_error_before_network adminClient_unmarshalable 2
              fix_unmarshalable) as (HC & _ & HP).
  split.
  - exact (HC "new-admin" _ eq_refl).
  - exact (proj2 (HP "acme" "prov" _ eq_refl)).
Defined.

Lemma dry_entropy_before_network_witness :
  List.length (wEntropy fix_dry) < 64 /\
  mints_token (@CallCreateAdmin deps "new-admin") = true /\
  snd (exec adminClient (@CallCreateAdmin deps "new-admin") 2 fix_dry) = fix_dry /\
  RemoveAdmin adminClient "x" 2 fix_dry =
  (Fail (errors_Wrapf (external_error "crypto/rand")
                      "error generating admin token" []), fix_dry).
Proof.
  assert (H : List.length (wEntropy fix_dry) < 64)
    by (apply Nat.ltb_lt; reflexivity).
  split; [exact H|]. split; [reflexivity|].
  destruct (dry_entropy_before_network adminClient
              (@CallCreateAdmin deps "new-admin") 2 fix_dry H eq_refl)
    as (Hst & _ & _ & Hrm).
  split; [exact Hst|apply Hrm].
Defined.

Lemma aggregators_follow_every_cursor_witness :
  2 <= 2 /\
  fst (GetAdmins adminClient [] 2 fix_endless) = OutOfFuel /\
  List.length (sends (wLog (snd (GetAdmins adminClient [] 2 fix_endless)))) = 2.
Proof.
  split; [apply le_n|].
  set (s1 := snd (fetch_admins adminClient 2 "" fix_endless)).
  set (s2 := snd (fetch_admins adminClient 2 "c1" s1)).
  assert (F1 : fetch_admins adminClient 2 "" fix_endless = (Ret page1, s1))
    by (apply injective_projections; [vm_compute; reflexivity|reflexivity]).
  assert (F2 : fetch_admins adminClient 2 "c1" s1 = (Ret page1, s2))
    by (apply injective_projections; [vm_compute; reflexivity|reflexivity]).
  assert (N1 : NextCursor page1 <> "") by discriminate.
  assert (RA : page_run (fetch_admins adminClient 2) (@NextCursor _)
                        "" fix_endless [page1; page1] "c1" s2).
  { eapply page_run_cons; [exact F1|exact N1|].
    eapply page_run_cons; [exact F2|exact N1|]. apply page_run_nil. }
  split.
  - exact (proj1 (aggregators_follow_every_cursor adminClient [] 2 fix_endless)
             [page1; page1] "c1" s2 RA (le_n 2)).
  - vm_compute. reflexivity.
Defined.


Lemma nil_key_panics_witness :
  x5cJWK adminClient_nokey = None /\
  64 <= List.length (wEntropy fix_pages) /\
  fst (generateAdminToken adminClient_nokey "/admin/admins/x" fix_pages) = Panic /\
  fst (RemoveAdmin adminClient_nokey "x" 2 fix_pages) = Panic /\
  wLog (snd (RemoveAdmin adminClient_nokey "x" 2 fix_pages)) = wLog fix_pages.
Proof.
  assert (H : 64 <= List.length (wEntropy fix_pages))
    by (apply Nat.leb_le; reflexivity).
  split; [reflexivity|]. split; [exact H|].
  destruct (nil_key_panics adminClient_nokey fix_pages eq_refl H) as [Hm Hr].
  split; [now rewrite Hm|]. apply Hr.
Defined.

Lemma admin_options_last_wins_witness :
  adminOptions_apply new_adminOptions [WithAdminLimit 5; WithAdminCursor "a"] =
    inr {| cursor := "a"; limit := 5 |} /\
  adminOptions_apply new_adminOptions
    ([WithAdminLimit 5; WithAdminCursor "a"] ++
     [WithAdminCursor "b"; WithAdminLimit 100]) =
    inr {| cursor := "b"; limit := 100 |}.
Proof.
  split; [reflexivity|].
  exact (proj1 (admin_options_last_wins new_adminOptions
                  {| cursor := "a"; limit := 5 |}
                  [WithAdminLimit 5; WithAdminCursor "a"] "b" "" 100 eq_refl)).
Defined.

End MoreScenarios.
